(** * nil-triggers: a shallow embedding of the heuristic trigger library

    The library (one JavaScript module) inspects a conversation and decides
    whether an agent should consider stopping.  This file embeds its four
    detectors, the combined [check] and the internal helpers [tokenise],
    [cosineSimilarity] and [getGaps], and proves the properties of its
    specification about them.

    Modelling conventions.
    - JavaScript numbers are IEEE-754 binary64 values: Rocq's primitive
      [float], so division by zero, [NaN], infinities and rounding are the
      ones the program has.
    - Count-like options ([threshold], [windowSize],
      [assistantResponseThreshold], [minAssistantLength]) are integer-valued
      numbers, modelled as [Z]; ratio-like options are [float]s.
    - Strings are sequences of code units below 256 (Rocq's [string] of
      [ascii]); [length] is JavaScript's [.length] on such strings.
    - A JavaScript exception is [None] in an [option] result. *)

From Stdlib Require Import Floats String Ascii List ZArith Bool Lia.
Import ListNotations.
Set Warnings "-inexact-float".

Open Scope Z_scope.

(** ** JavaScript numbers *)

(** A non-negative integer (an array length or a string length) as a number. *)
Definition num_of_nat (n : nat) : float := of_uint63 (Uint63.of_Z (Z.of_nat n)).

(** ** Messages *)

Inductive Role := User | Assistant.

Record Message := mkMessage {
  role : Role;
  content : string;
  timestamp : float
}.

(** [m.role === "user"] *)
Definition is_user (m : Message) : bool :=
  match role m with User => true | Assistant => false end.

(** [m.role === "assistant"] *)
Definition is_assistant (m : Message) : bool :=
  match role m with Assistant => true | User => false end.

(** ** Arrays *)

(** The relative index of [Array.prototype.slice] for an integer argument:
    negative arguments count from the end, and the result is clamped to
    [0 .. len].  ([-0] is [0], as in JavaScript.) *)
Definition rel_index (len i : Z) : Z :=
  if i <? 0 then Z.max (len + i) 0 else Z.min i len.

(** [l.slice(start)] ([end_ = None]) and [l.slice(start, end)]. *)
Definition slice {A} (l : list A) (start : Z) (end_ : option Z) : list A :=
  let len := Z.of_nat (length l) in
  let s := rel_index len start in
  let e := match end_ with Some e => rel_index len e | None => len end in
  firstn (Z.to_nat (e - s)) (skipn (Z.to_nat s) l).

(** The loop [for (let i = 1; i < xs.length; i++) out.push(f(xs[i-1], xs[i]))],
    shared by [detectLoop] and [getGaps]. *)
Fixpoint consecutive {A B} (f : A -> A -> B) (l : list A) : list B :=
  match l with
  | x :: ((y :: _) as t) => f x y :: consecutive f t
  | _ => []
  end.

(** [arr.length] of a list as a number *)
Definition len_num {A} (l : list A) : float := num_of_nat (length l).

(** ** Strings *)

Open Scope string_scope.

(** [String.prototype.toLowerCase] on one code unit: A-Z and the Latin-1
    capitals U+00C0..U+00DE (but U+00D7) move up by 32. *)
Definition to_lower_char (c : ascii) : ascii :=
  let n := nat_of_ascii c in
  if ((65 <=? n)%nat && (n <=? 90)%nat)
     || ((192 <=? n)%nat && (n <=? 222)%nat && negb (n =? 215)%nat)
  then ascii_of_nat (n + 32) else c.

Fixpoint toLowerCase (s : string) : string :=
  match s with
  | EmptyString => EmptyString
  | String c s' => String (to_lower_char c) (toLowerCase s')
  end.

(** The regular-expression class [\w]: [A-Za-z0-9_]. *)
Definition is_word_char (c : ascii) : bool :=
  let n := nat_of_ascii c in
  ((48 <=? n)%nat && (n <=? 57)%nat) || ((65 <=? n)%nat && (n <=? 90)%nat)
  || ((97 <=? n)%nat && (n <=? 122)%nat) || (n =? 95)%nat.

(** The regular-expression class [\s] on code units below 256: tab, line
    feed, vertical tab, form feed, carriage return, space and U+00A0. *)
Definition is_space_char (c : ascii) : bool :=
  let n := nat_of_ascii c in
  ((9 <=? n)%nat && (n <=? 13)%nat) || (n =? 32)%nat || (n =? 160)%nat.

(** [text.replace(/[^\w\s]/g, "")] *)
Fixpoint strip_non_word (s : string) : string :=
  match s with
  | EmptyString => EmptyString
  | String c s' =>
      if is_word_char c || is_space_char c then String c (strip_non_word s')
      else strip_non_word s'
  end.

(** [text.split(/\s+/)]: cut at every maximal run of whitespace; [cur] is the
    field being read and [in_run] says whether the last code unit was
    whitespace (then [cur] is empty and the run goes on). *)
Fixpoint split_ws_go (s cur : string) (in_run : bool) : list string :=
  match s with
  | EmptyString => [cur]
  | String c s' =>
      if is_space_char c then
        if in_run then split_ws_go s' cur true
        else cur :: split_ws_go s' EmptyString true
      else split_ws_go s' (cur ++ String c EmptyString) false
  end.

Definition split_ws (s : string) : list string := split_ws_go s EmptyString false.

(** [str.includes(pattern)] *)
Fixpoint starts_with (s p : string) : bool :=
  match p, s with
  | EmptyString, _ => true
  | String c p', String d s' => Ascii.eqb c d && starts_with s' p'
  | String _ _, EmptyString => false
  end.

Fixpoint includes (s p : string) : bool :=
  starts_with s p ||
  match s with
  | EmptyString => false
  | String _ s' => includes s' p
  end.

(** ** Tokeniser

    [text.toLowerCase().replace(/[^\w\s]/g, "").split(/\s+/).filter(Boolean)] *)
Definition tokenise (text : string) : list string :=
  filter (fun t => negb (String.eqb t EmptyString))
    (split_ws (strip_non_word (toLowerCase text))).

(** ** Plain JavaScript objects used as maps

    [cosineSimilarity] counts tokens in an object literal [{}].  Such an object
    inherits from [Object.prototype], so reading a key that is not an own
    property yields the inherited member when there is one; the values it
    holds are JavaScript values, combined by JavaScript's coercions. *)

Inductive jsval :=
  | JNum (x : float)
  | JStr (s : string)
  | JFun (name : string)   (** a built-in function, by its [name] *)
  | JObjectProto           (** the object [Object.prototype] *)
  | JUndefined.

(** The methods of [Object.prototype]: property key and function name. *)
Definition object_prototype_methods : list (string * string) :=
  [("constructor", "Object"); ("hasOwnProperty", "hasOwnProperty");
   ("isPrototypeOf", "isPrototypeOf");
   ("propertyIsEnumerable", "propertyIsEnumerable");
   ("toString", "toString"); ("toLocaleString", "toLocaleString");
   ("valueOf", "valueOf"); ("__defineGetter__", "__defineGetter__");
   ("__defineSetter__", "__defineSetter__");
   ("__lookupGetter__", "__lookupGetter__");
   ("__lookupSetter__", "__lookupSetter__")].

Fixpoint assoc {A} (k : string) (l : list (string * A)) : option A :=
  match l with
  | [] => None
  | (k', v) :: l' => if String.eqb k' k then Some v else assoc k l'
  end.

(** Reading [key] on [Object.prototype]; the accessor [__proto__] returns the
    prototype of the receiver, [Object.prototype] itself. *)
Definition proto_get (k : string) : jsval :=
  if String.eqb k "__proto__" then JObjectProto
  else match assoc k object_prototype_methods with
       | Some n => JFun n
       | None => JUndefined
       end.

(** An object whose prototype is [Object.prototype]: its own properties in
    creation order. *)
Definition jsobj := list (string * jsval).

(** [obj[k]] *)
Definition get (o : jsobj) (k : string) : jsval :=
  match assoc k o with Some v => v | None => proto_get k end.

Fixpoint own_set (o : jsobj) (k : string) (v : jsval) : jsobj :=
  match o with
  | [] => [(k, v)]
  | (k', v') :: o' => if String.eqb k' k then (k, v) :: o' else (k', v') :: own_set o' k v
  end.

(** [obj[k] = v] for a primitive [v] (a number or a string, the only values
    stored here): the inherited [__proto__] setter ignores a value that is not
    an object, any other key becomes (or updates) an own property. *)
Definition set_prim (o : jsobj) (k : string) (v : jsval) : jsobj :=
  if String.eqb k "__proto__" then o else own_set o k v.

(** Truthiness, for [x || 0]. *)
Definition truthy (v : jsval) : bool :=
  match v with
  | JNum x => negb (x =? 0)%float && (x =? x)%float
  | JStr s => negb (String.eqb s EmptyString)
  | JFun _ | JObjectProto => true
  | JUndefined => false
  end.

(** [x || 0] *)
Definition or_zero (v : jsval) : jsval := if truthy v then v else JNum 0%float.

(** [String(f)] of a built-in function, and [String(Object.prototype)]. *)
Definition fun_source (n : string) : string :=
  "function " ++ n ++ "() { [native code] }".

(** [x + 1]: numeric addition on a number, concatenation once the left operand
    is (or converts to) a string. *)
Definition plus_one (v : jsval) : jsval :=
  match v with
  | JNum x => JNum (x + 1)%float
  | JStr s => JStr (s ++ "1")
  | JFun n => JStr (fun_source n ++ "1")
  | JObjectProto => JStr ("[object Object]" ++ "1")
  | JUndefined => JNum nan
  end.

Definition is_digit (c : ascii) : bool :=
  ((48 <=? nat_of_ascii c)%nat && (nat_of_ascii c <=? 57)%nat).

Fixpoint all_digits (s : string) : bool :=
  match s with
  | EmptyString => true
  | String c s' => is_digit c && all_digits s'
  end.

Fixpoint digits_value (s : string) (acc : Z) : Z :=
  match s with
  | EmptyString => acc
  | String c s' => digits_value s' (10 * acc + (Z.of_nat (nat_of_ascii c) - 48))%Z
  end.

(** [Number(s)] for the strings that occur here.  Decimal digit strings (and
    the empty string) are numeric; every string that [cosineSimilarity] can
    hold begins with ["function "] or ["[object"] and converts to [NaN]. *)
Definition string_to_number (s : string) : float :=
  if String.eqb s EmptyString then 0%float
  else if all_digits s then of_uint63 (Uint63.of_Z (digits_value s 0))
  else nan.

(** [Number(v)], the conversion applied by [*]. *)
Definition to_number (v : jsval) : float :=
  match v with
  | JNum x => x
  | JStr s => string_to_number s
  | JFun _ | JObjectProto | JUndefined => nan
  end.

(** [x * y] *)
Definition js_mul (x y : jsval) : float := (to_number x * to_number y)%float.

(** [Object.keys(o)]: the own keys that are array indices (canonical decimal
    integers below 2^32 - 1) in ascending numeric order, then the others in
    creation order. *)
Definition is_array_index (k : string) : bool :=
  match k with
  | EmptyString => false
  | String c rest =>
      all_digits k
      && (String.eqb rest EmptyString || negb (Ascii.eqb c "0"%char))
      && (digits_value k 0 <? 4294967295)%Z
  end.

Fixpoint insert_index (k : string) (l : list string) : list string :=
  match l with
  | [] => [k]
  | k' :: l' =>
      if (digits_value k 0 <=? digits_value k' 0)%Z then k :: l
      else k' :: insert_index k l'
  end.

Definition object_keys (o : jsobj) : list string :=
  let ks := map fst o in
  (fold_right insert_index [] (filter is_array_index ks)
   ++ filter (fun k => negb (is_array_index k)) ks)%list.

(** [new Set(keys)] iterated in insertion order: first occurrences. *)
Definition set_of_keys (ks : list string) : list string :=
  fold_left (fun acc k => if existsb (String.eqb k) acc then acc else (acc ++ [k])%list) ks [].

(** ** Similarity scorer *)

(** [freq]: [for (const t of tokens) map[t] = (map[t] || 0) + 1] *)
Definition freq (tokens : list string) : jsobj :=
  fold_left (fun m t => set_prim m t (plus_one (or_zero (get m t)))) tokens [].

(** [cosineSimilarity(tokensA, tokensB)] *)
Definition cosineSimilarity (tokensA tokensB : list string) : float :=
  let a := freq tokensA in
  let b := freq tokensB in
  let allKeys := set_of_keys (object_keys a ++ object_keys b)%list in
  let '(dot, magA, magB) :=
    fold_left
      (fun '(dot, magA, magB) key =>
         let va := or_zero (get a key) in
         let vb := or_zero (get b key) in
         ((dot + js_mul va vb)%float, (magA + js_mul va va)%float,
          (magB + js_mul vb vb)%float))
      allKeys (0%float, 0%float, 0%float) in
  let denom := (PrimFloat.sqrt magA * PrimFloat.sqrt magB)%float in
  if (denom =? 0)%float then 0%float else (dot / denom)%float.

(** ** Loop detector *)

Record LoopOptions := {
  threshold : option Z;
  similarityFloor : option float
}.

Definition default {A} (d : A) (o : option A) : A :=
  match o with Some x => x | None => d end.

(** [options = {}] when the argument is absent *)
Definition loop_options (options : option LoopOptions) : LoopOptions :=
  default {| threshold := None; similarityFloor := None |} options.

Definition detectLoop (messages : list Message) (options : option LoopOptions) : bool :=
  let o := loop_options options in
  let threshold := default 3%Z (threshold o) in
  let similarityFloor := default 0.6%float (similarityFloor o) in
  let userMessages := slice (filter is_user messages) (- threshold - 1)%Z None in
  if (Z.of_nat (length userMessages) <? threshold)%Z then false
  else
    let recent := slice userMessages (- threshold)%Z None in
    let similarities :=
      consecutive (fun p q => cosineSimilarity (tokenise (content p)) (tokenise (content q)))
        recent in
    forallb (fun s => (similarityFloor <=? s)%float) similarities.

(** ** Statistics helpers *)

(** [arr.reduce((sum, m) => sum + m.content.length, 0)] *)
Definition sum_content_length (l : list Message) : float :=
  fold_left (fun sum m => (sum + num_of_nat (String.length (content m)))%float) l 0%float.

(** [arr.reduce((a, b) => a + b, 0)] *)
Definition sum_numbers (l : list float) : float :=
  fold_left (fun a b => (a + b)%float) l 0%float.

(** [getGaps(messages)]: time gaps between consecutive messages. *)
Definition getGaps (messages : list Message) : list float :=
  consecutive (fun p q => (timestamp q - timestamp p)%float) messages.

(** ** Velocity-collapse detector *)

Module VelocityCollapseOptions.
Record t := {
  lengthDropRatio : option float;
  frequencyDropRatio : option float;
  windowSize : option Z
}.
Definition empty : t :=
  {| lengthDropRatio := None; frequencyDropRatio := None; windowSize := None |}.
End VelocityCollapseOptions.

Definition detectVelocityCollapse (messages : list Message)
    (options : option VelocityCollapseOptions.t) : bool :=
  let o := default VelocityCollapseOptions.empty options in
  let lengthDropRatio := default 0.3%float (VelocityCollapseOptions.lengthDropRatio o) in
  let frequencyDropRatio := default 3%float (VelocityCollapseOptions.frequencyDropRatio o) in
  let windowSize := default 4%Z (VelocityCollapseOptions.windowSize o) in
  let userMessages := filter is_user messages in
  if (Z.of_nat (length userMessages) <? windowSize * 2)%Z then false
  else
    let earlier := slice userMessages 0 (Some (- windowSize)%Z) in
    let recent := slice userMessages (- windowSize)%Z None in
    (* Check length collapse *)
    let earlierAvgLength := (sum_content_length earlier / len_num earlier)%float in
    let recentAvgLength := (sum_content_length recent / len_num recent)%float in
    if (0 <? earlierAvgLength)%float
       && (recentAvgLength / earlierAvgLength <=? lengthDropRatio)%float
    then true
    else
      (* Check frequency collapse *)
      let earlierGaps := getGaps earlier in
      let recentGaps := getGaps recent in
      if (length earlierGaps =? 0)%nat || (length recentGaps =? 0)%nat then false
      else
        let earlierAvgGap := (sum_numbers earlierGaps / len_num earlierGaps)%float in
        let recentAvgGap := (sum_numbers recentGaps / len_num recentGaps)%float in
        if (0 <? earlierAvgGap)%float
           && (frequencyDropRatio <=? recentAvgGap / earlierAvgGap)%float
        then true
        else false.

(** ** Scope-creep detector *)

Module ScopeCreepOptions.
Record t := {
  windowSize : option Z;
  growthRatio : option float
}.
Definition empty : t := {| windowSize := None; growthRatio := None |}.
End ScopeCreepOptions.

(** [arr.filter((m) => m.content.includes("?")).length] *)
Definition count_questions (l : list Message) : nat :=
  length (filter (fun m => includes (content m) "?") l).

Definition detectScopeCreep (messages : list Message)
    (options : option ScopeCreepOptions.t) : bool :=
  let o := default ScopeCreepOptions.empty options in
  let windowSize := default 5%Z (ScopeCreepOptions.windowSize o) in
  let growthRatio := default 1.5%float (ScopeCreepOptions.growthRatio o) in
  let userMessages := filter is_user messages in
  if (Z.of_nat (length userMessages) <? windowSize * 2)%Z then false
  else
    let earlier := slice userMessages (- windowSize * 2)%Z (Some (- windowSize)%Z) in
    let recent := slice userMessages (- windowSize)%Z None in
    let earlierAvgLength := (sum_content_length earlier / len_num earlier)%float in
    let recentAvgLength := (sum_content_length recent / len_num recent)%float in
    (* Messages getting longer suggests expanding scope *)
    if (growthRatio <=? recentAvgLength / earlierAvgLength)%float then
      let recentQuestions := count_questions recent in
      let earlierQuestions := count_questions earlier in
      if (earlierQuestions <=? recentQuestions)%nat then true else false
    else false.

(** ** Saturation detector *)

Definition default_requestPatterns : list string :=
  ["can you also"; "what about"; "another"; "more"; "one more"; "anything else";
   "what else"; "give me"; "how about"; "and also"; "additionally"].

Record SaturationOptions := {
  assistantResponseThreshold : option Z;
  minAssistantLength : option Z;
  requestPatterns : option (list string)
}.

Definition saturation_options (options : option SaturationOptions) : SaturationOptions :=
  default {| assistantResponseThreshold := None; minAssistantLength := None;
             requestPatterns := None |} options.

(** [arr[i]] for an integer [i]: [None] is [undefined]. *)
Definition index {A} (l : list A) (i : Z) : option A :=
  if (i <? 0)%Z then None else nth_error l (Z.to_nat i).

(** Reading [.timestamp] of [undefined] throws a [TypeError]: the result is
    [None] then. *)
Definition detectSaturation (messages : list Message)
    (options : option SaturationOptions) : option bool :=
  let o := saturation_options options in
  let assistantResponseThreshold := default 3%Z (assistantResponseThreshold o) in
  let minAssistantLength := default 200%Z (minAssistantLength o) in
  let requestPatterns := default default_requestPatterns (requestPatterns o) in
  let substantiveResponses :=
    filter (fun m => is_assistant m
                     && (minAssistantLength <=? Z.of_nat (String.length (content m)))%Z)
      messages in
  if (Z.of_nat (length substantiveResponses) <? assistantResponseThreshold)%Z
  then Some false
  else
    (* Look at user messages after the threshold was met *)
    match index substantiveResponses (assistantResponseThreshold - 1)%Z with
    | None => None
    | Some r =>
        let thresholdTimestamp := timestamp r in
        let userMessagesAfterThreshold :=
          filter (fun m => is_user m && (thresholdTimestamp <? timestamp m)%float) messages in
        if (length userMessagesAfterThreshold =? 0)%nat then Some false
        else
          (* Check if recent user messages are requesting more of the same *)
          let requestingMore :=
            filter (fun m =>
                      let lower := toLowerCase (content m) in
                      existsb (fun pattern => includes lower pattern) requestPatterns)
              userMessagesAfterThreshold in
          Some (2 <=? length requestingMore)%nat
    end.

(** ** Combined check *)

Record CheckOptions := {
  loop : option LoopOptions;
  velocityCollapse : option VelocityCollapseOptions.t;
  scopeCreep : option ScopeCreepOptions.t;
  saturation : option SaturationOptions
}.

Definition check_options (options : option CheckOptions) : CheckOptions :=
  default {| loop := None; velocityCollapse := None; scopeCreep := None;
             saturation := None |} options.

Record Result := {
  triggered : bool;
  signals : list string
}.

(** The pushes onto [signals], in order; an exception of a detector is the
    exception of [check]. *)
Definition check (messages : list Message) (options : option CheckOptions) : option Result :=
  let o := check_options options in
  let s1 := if detectLoop messages (loop o) then ["loop"] else [] in
  let s2 := if detectVelocityCollapse messages (velocityCollapse o)
            then ["velocity-collapse"] else [] in
  let s3 := if detectScopeCreep messages (scopeCreep o) then ["scope-creep"] else [] in
  match detectSaturation messages (saturation o) with
  | None => None
  | Some sat =>
      let signals := (s1 ++ s2 ++ s3 ++ (if sat then ["saturation"] else []))%list in
      Some {| triggered := (0 <? length signals)%nat; signals := signals |}
  end.

(** ** The specification's vocabulary

    The definitions below follow the specification's words, to be compared
    with the code above. *)

(** The mean character length of a group of messages (sum over count, as a
    JavaScript number). *)
Definition mean_length (l : list Message) : float :=
  (sum_content_length l / len_num l)%float.

(** The mean of a list of numbers. *)
Definition mean_number (l : list float) : float :=
  (sum_numbers l / len_num l)%float.

(** The last [n] elements of a list (all of it when it is shorter). *)
Definition last_n {A} (n : nat) (l : list A) : list A := skipn (length l - n) l.

(** Every consecutive pair [(w[i], w[i+1])] of a window satisfies [P]. *)
Definition every_consecutive_pair {A} (P : A -> A -> Prop) (w : list A) : Prop :=
  forall i p q, nth_error w i = Some p -> nth_error w (S i) = Some q -> P p q.

(** Loop: at least [threshold] user messages and every consecutive pair among
    the last [threshold] of them at least [similarityFloor] similar. *)
Definition loop_claim (messages : list Message) (threshold : nat) (floor : float) : Prop :=
  let u := filter is_user messages in
  (threshold <= length u)%nat /\
  every_consecutive_pair
    (fun p q => (floor <=? cosineSimilarity (tokenise (content p)) (tokenise (content q)))%float = true)
    (last_n threshold u).

(** Scope creep, as claimed: two adjacent windows of [windowSize] user messages
    at the end, (a) mean of recent at least [growthRatio] times the mean of
    earlier and (b) no fewer questions in recent than in earlier. *)
Definition scope_windows (messages : list Message) (w : nat) : list Message * list Message :=
  let u := filter is_user messages in
  (firstn w (last_n (2 * w) u), last_n w u).

Definition scope_creep_claim (messages : list Message) (w : nat) (growthRatio : float) : Prop :=
  let '(earlier, recent) := scope_windows messages w in
  (2 * w <= length (filter is_user messages))%nat /\
  (growthRatio * mean_length earlier <=? mean_length recent)%float = true /\
  (count_questions earlier <= count_questions recent)%nat.

(** Scope creep, amended: condition (a) is the ratio of the means. *)
Definition scope_creep_ratio (messages : list Message) (w : nat) (growthRatio : float) : Prop :=
  let '(earlier, recent) := scope_windows messages w in
  (2 * w <= length (filter is_user messages))%nat /\
  (growthRatio <=? mean_length recent / mean_length earlier)%float = true /\
  (count_questions earlier <= count_questions recent)%nat.

(** Velocity collapse: "recent" is the last [windowSize] user messages,
    "earlier" all that precede them; the frequency check runs only when the
    length check did not fire, on gaps taken within each group. *)
Definition velocity_claim (messages : list Message)
    (lengthDropRatio frequencyDropRatio : float) (w : nat) : bool :=
  let u := filter is_user messages in
  if (length u <? 2 * w)%nat then false
  else
    let recent := last_n w u in
    let earlier := firstn (length u - w) u in
    let length_check :=
      (0 <? mean_length earlier)%float
      && (mean_length recent / mean_length earlier <=? lengthDropRatio)%float in
    if length_check then true
    else
      let eg := getGaps earlier in
      let rg := getGaps recent in
      negb (length eg =? 0)%nat && negb (length rg =? 0)%nat
      && (0 <? mean_number eg)%float
      && (frequencyDropRatio <=? mean_number rg / mean_number eg)%float.

(** Saturation: with the [k]-th (1-indexed) substantive assistant message,
    at least two later user messages carry a request pattern. *)
Definition substantive (minAssistantLength : Z) (messages : list Message) : list Message :=
  filter (fun m => is_assistant m
                   && (minAssistantLength <=? Z.of_nat (String.length (content m)))%Z)
    messages.

Definition requests_more (patterns : list string) (m : Message) : bool :=
  existsb (fun p => includes (toLowerCase (content m)) p) patterns.

Definition saturation_claim (messages : list Message) (k : nat)
    (minAssistantLength : Z) (patterns : list string) : Prop :=
  exists r,
    nth_error (substantive minAssistantLength messages) (k - 1) = Some r /\
    (2 <= length (filter (fun m => is_user m && (timestamp r <? timestamp m)%float
                                   && requests_more patterns m) messages))%nat.

(** The fixed evaluation order of the four tags. *)
Definition all_tags : list string :=
  ["loop"; "velocity-collapse"; "scope-creep"; "saturation"].

(** The loop scenario of the specification. *)
Definition loop_scenario : list string :=
  ["Rewrite the intro paragraph"; "Rewrite the intro paragraph differently";
   "Rewrite the intro paragraph again please"].

(** The resolved saturation options (the defaults fill absent fields). *)
Definition sat_threshold (options : option SaturationOptions) : Z :=
  default 3%Z (assistantResponseThreshold (saturation_options options)).

Definition sat_minlen (options : option SaturationOptions) : Z :=
  default 200%Z (minAssistantLength (saturation_options options)).

Definition sat_patterns (options : option SaturationOptions) : list string :=
  default default_requestPatterns (requestPatterns (saturation_options options)).

(** The resolved velocity-collapse and scope-creep options. *)
Definition vc_window (options : option VelocityCollapseOptions.t) : Z :=
  default 4%Z (VelocityCollapseOptions.windowSize (default VelocityCollapseOptions.empty options)).

Definition vc_lengthDropRatio (options : option VelocityCollapseOptions.t) : float :=
  default 0.3%float
    (VelocityCollapseOptions.lengthDropRatio (default VelocityCollapseOptions.empty options)).

Definition vc_frequencyDropRatio (options : option VelocityCollapseOptions.t) : float :=
  default 3%float
    (VelocityCollapseOptions.frequencyDropRatio (default VelocityCollapseOptions.empty options)).

Definition sc_window (options : option ScopeCreepOptions.t) : Z :=
  default 5%Z (ScopeCreepOptions.windowSize (default ScopeCreepOptions.empty options)).

Definition sc_growthRatio (options : option ScopeCreepOptions.t) : float :=
  default 1.5%float (ScopeCreepOptions.growthRatio (default ScopeCreepOptions.empty options)).

(** Whether the detector behind a tag returned true, each on its own options
    sub-record. *)
Definition detector_fired (messages : list Message) (o : CheckOptions) (t : string) : bool :=
  if String.eqb t "loop" then detectLoop messages (loop o)
  else if String.eqb t "velocity-collapse" then detectVelocityCollapse messages (velocityCollapse o)
  else if String.eqb t "scope-creep" then detectScopeCreep messages (scopeCreep o)
  else if String.eqb t "saturation" then
    match detectSaturation messages (saturation o) with Some true => true | _ => false end
  else false.

(** ** Characters of tokens and patterns *)

(** [true] when every code unit of [s] satisfies [p]. *)
Fixpoint string_forall (p : ascii -> bool) (s : string) : bool :=
  match s with
  | EmptyString => true
  | String c s' => p c && string_forall p s'
  end.

(** An ASCII capital letter A-Z. *)
Definition is_upper (c : ascii) : bool :=
  ((65 <=? nat_of_ascii c)%nat && (nat_of_ascii c <=? 90)%nat).

(** [a-z], [0-9] or [_]. *)
Definition is_token_char (c : ascii) : bool :=
  let n := nat_of_ascii c in
  ((48 <=? n)%nat && (n <=? 57)%nat) || ((97 <=? n)%nat && (n <=? 122)%nat) || (n =? 95)%nat.

(** The pattern contains an ASCII capital letter. *)
Definition has_upper (p : string) : bool := negb (string_forall (fun c => negb (is_upper c)) p).

(** Tokens other than ["__proto__"]. *)
Definition not_proto (t : string) : bool := negb (String.eqb t "__proto__").

(** ** nil-space

    The companion module [nil-space.js]: a reply function [nil] that waits,
    answers direct questions and otherwise flips a weighted coin, and the
    command-line loop around it.  [Math.random()] and the language-model call
    are the environment: the [n]-th random number drawn and the reply to the
    [n]-th model call.  The world counts how many of each have happened.  The
    three-second wait ([breath]) has no observable effect here and is not
    modelled. *)

(** [String.prototype.trim]: drop leading and trailing whitespace. *)
Fixpoint trim_start (s : string) : string :=
  match s with
  | EmptyString => EmptyString
  | String c s' => if is_space_char c then trim_start s' else s
  end.

(** Drop trailing whitespace: a whitespace code unit goes when nothing but
    whitespace follows it. *)
Fixpoint trim_end (s : string) : string :=
  match s with
  | EmptyString => EmptyString
  | String c s' =>
      let r := trim_end s' in
      if is_space_char c && String.eqb r EmptyString then EmptyString else String c r
  end.

Definition trim (s : string) : string := trim_end (trim_start s).

Module NilSpace.

Definition BREATH : Z := 3000%Z.
Definition SILENCE_WEIGHT : float := 0.7%float.
Definition MAX_TOKENS : Z := 5%Z.

Record World := mkWorld {
  draws : nat;   (** random numbers drawn so far *)
  calls : nat    (** language-model calls made so far *)
}.

Record Env := {
  random : nat -> float;              (** the [n]-th [Math.random()] *)
  model_reply : nat -> string -> string  (** the text of the [n]-th model reply *)
}.

(** [coin()]: [Math.random() > SILENCE_WEIGHT] *)
Definition coin (env : Env) (w : World) : bool * World :=
  ((SILENCE_WEIGHT <? random env (draws w))%float, mkWorld (S (draws w)) (calls w)).

Definition checks : list string := ["are you there"; "hello"; "hi"; "hey"; "anyone there"].

(** [isDirectQuestion(message)] *)
Definition isDirectQuestion (message : string) : bool :=
  let lower := toLowerCase (trim message) in
  existsb (fun c => String.eqb lower c || String.eqb lower (c ++ "?")) checks.

(** [whisper(message)]: one model call, its text. *)
Definition whisper (env : Env) (message : string) (w : World) : string * World :=
  (model_reply env (calls w) message, mkWorld (draws w) (S (calls w))).

(** [nil(message)]: [None] is [null]. *)
Definition nil (env : Env) (message : string) (w : World) : option string * World :=
  if isDirectQuestion message then
    let (r, w1) := whisper env message w in (Some r, w1)
  else
    let (heads, w1) := coin env w in
    if heads then let (r, w2) := whisper env message w1 in (Some r, w2)
    else (None, w1).

(** The line printed for a response: [if (response)] is false for [null] and
    for the empty string, and then the dot U+00B7 is printed. *)
Definition dot_line : string := "  " ++ String (ascii_of_nat 183) EmptyString.

Definition response_line (response : option string) : string :=
  match response with
  | Some r => if String.eqb r EmptyString then dot_line else "  " ++ r
  | None => dot_line
  end.

(** [prompt()]: one input line per [rl.question]; the printed lines and the
    final world.  The loop ends when the input ends or at "done" ([rl.close()]). *)
Fixpoint prompt (env : Env) (inputs : list string) (w : World) : list string * World :=
  match inputs with
  | [] => ([], w)
  | input :: rest =>
      let trimmed := trim input in
      if String.eqb trimmed EmptyString then prompt env rest w
      else if String.eqb (toLowerCase trimmed) "done" then ([], w)
      else
        let (response, w1) := nil env trimmed w in
        let (out, w2) := prompt env rest w1 in
        (response_line response :: EmptyString :: out, w2)
  end.

(** [main()]: an empty line, then the loop. *)
Definition main (env : Env) (inputs : list string) (w : World) : list string * World :=
  let (out, w1) := prompt env inputs w in (EmptyString :: out, w1).

(** A line the loop ends at. *)
Definition is_done (input : string) : bool :=
  negb (String.eqb (trim input) EmptyString) && String.eqb (toLowerCase (trim input)) "done".

End NilSpace.

(** * Properties *)

(** ** JavaScript numbers: NaN *)

Lemma Prim2SF_nan : Prim2SF nan = S754_nan.
Proof. vm_compute. reflexivity. Qed.

Lemma leb_nan_r (x : float) : (x <=? nan)%float = false.
Proof. rewrite leb_spec, Prim2SF_nan. unfold SFleb, SFcompare. now destruct (Prim2SF x). Qed.

Lemma leb_nan_l (x : float) : (nan <=? x)%float = false.
Proof. rewrite leb_spec, Prim2SF_nan. reflexivity. Qed.

Lemma ltb_nan_r (x : float) : (x <? nan)%float = false.
Proof. rewrite ltb_spec, Prim2SF_nan. unfold SFltb, SFcompare. now destruct (Prim2SF x). Qed.

Lemma div_nan_l (x : float) : (nan / x)%float = nan.
Proof. apply Prim2SF_inj. rewrite div_spec, Prim2SF_nan. reflexivity. Qed.

Lemma div_nan_r (x : float) : (x / nan)%float = nan.
Proof.
  apply Prim2SF_inj. rewrite div_spec, Prim2SF_nan.
  unfold SF64div, SFdiv. now destruct (Prim2SF x).
Qed.

Lemma mean_length_nil : mean_length [] = nan.
Proof. vm_compute. reflexivity. Qed.

(** ** Arrays *)

Lemma slice_None {A} (l : list A) (start : Z) :
  slice l start None = skipn (Z.to_nat (rel_index (Z.of_nat (length l)) start)) l.
Proof.
  unfold slice. apply firstn_all2. rewrite length_skipn.
  unfold rel_index. destruct (start <? 0)%Z; lia.
Qed.

(** [l.slice(-k)] for [k >= 1]: the last [k] elements. *)
Lemma slice_neg {A} (l : list A) (k : nat) :
  (1 <= k)%nat -> slice l (- Z.of_nat k) None = last_n k l.
Proof.
  intros Hk. rewrite slice_None. unfold last_n, rel_index. f_equal.
  replace (- Z.of_nat k <? 0)%Z with true by (symmetry; apply Z.ltb_lt; lia). lia.
Qed.

(** [l.slice(-0)] is [l.slice(0)], all of [l]. *)
Lemma slice_zero {A} (l : list A) : slice l 0 None = l.
Proof. rewrite slice_None. unfold rel_index. simpl. now rewrite Z.min_l by lia. Qed.

(** [l.slice(0, -k)] for [k >= 1]: all but the last [k]. *)
Lemma slice_front {A} (l : list A) (k : nat) :
  (1 <= k)%nat -> slice l 0 (Some (- Z.of_nat k)%Z) = firstn (length l - k) l.
Proof.
  intros Hk. unfold slice, rel_index. change (0 <? 0)%Z with false. cbv iota.
  replace (- Z.of_nat k <? 0)%Z with true by (symmetry; apply Z.ltb_lt; lia).
  rewrite Z.min_l by lia. simpl skipn. f_equal. lia.
Qed.

Lemma length_last_n {A} (n : nat) (l : list A) : length (last_n n l) = Nat.min n (length l).
Proof. unfold last_n. rewrite length_skipn. lia. Qed.

Lemma last_n_last_n {A} (n m : nat) (l : list A) :
  (n <= m)%nat -> last_n n (last_n m l) = last_n n l.
Proof.
  intros Hnm. unfold last_n at 1. rewrite length_last_n. unfold last_n.
  rewrite skipn_skipn. f_equal. lia.
Qed.

Lemma last_n_zero {A} (l : list A) : last_n 0 l = [].
Proof. unfold last_n. apply skipn_all2. lia. Qed.

(** The pairs visited by the [for (let i = 1; ...)] loop are exactly the
    consecutive pairs of the array. *)
Lemma forallb_consecutive {A B} (f : A -> A -> B) (g : B -> bool) (w : list A) :
  forallb g (consecutive f w) = true <->
  every_consecutive_pair (fun p q => g (f p q) = true) w.
Proof.
  unfold every_consecutive_pair.
  induction w as [|x w IH]; simpl.
  - split; [intros _ i p q H; destruct i; discriminate | reflexivity].
  - destruct w as [|y w'].
    + split; [intros _ i p q _ H; destruct i; simpl in H; [discriminate | destruct i; discriminate]
             | reflexivity].
    + simpl in IH |- *. rewrite andb_true_iff, IH. split.
      * intros [Hxy Hrest] i p q Hp Hq. destruct i as [|i].
        -- simpl in Hp, Hq. congruence.
        -- exact (Hrest i p q Hp Hq).
      * intros H. split.
        -- exact (H 0%nat x y eq_refl eq_refl).
        -- intros i p q Hp Hq. exact (H (S i) p q Hp Hq).
Qed.

Lemma consecutive_short {A B} (f : A -> A -> B) (w : list A) :
  (length w <= 1)%nat -> consecutive f w = [].
Proof. destruct w as [|x [|y w]]; simpl; intros; try reflexivity; lia. Qed.

(** ** Loop detector *)

(** [detectLoop] on its resolved options: the window is the last [threshold]
    user messages. *)
Lemma detectLoop_window (messages : list Message) (options : option LoopOptions) (n : nat) :
  default 3%Z (threshold (loop_options options)) = Z.of_nat n ->
  detectLoop messages options =
    let u := filter is_user messages in
    let floor := default 0.6%float (similarityFloor (loop_options options)) in
    if (length u <? n)%nat then false
    else forallb (fun s => (floor <=? s)%float)
           (consecutive (fun p q => cosineSimilarity (tokenise (content p)) (tokenise (content q)))
              (last_n n u)).
Proof.
  intros Hn. unfold detectLoop. rewrite Hn. cbv zeta.
  set (u := filter is_user messages).
  destruct n as [|k].
  - replace (- Z.of_nat 0 - 1)%Z with (- Z.of_nat 1)%Z by lia.
    rewrite slice_neg by lia. simpl (Z.of_nat 0). simpl (- 0)%Z. rewrite slice_zero.
    rewrite last_n_zero. simpl.
    replace (Z.of_nat (length (last_n 1 u)) <? 0)%Z with false by (symmetry; apply Z.ltb_ge; lia).
    rewrite consecutive_short; [reflexivity|]. rewrite length_last_n. lia.
  - replace (- Z.of_nat (S k) - 1)%Z with (- Z.of_nat (S (S k)))%Z by lia.
    rewrite slice_neg by lia. rewrite slice_neg by lia.
    rewrite last_n_last_n by lia. rewrite length_last_n.
    destruct (length u <? S k)%nat eqn:E.
    + apply Nat.ltb_lt in E. replace (Z.of_nat (Nat.min (S (S k)) (length u)) <? Z.of_nat (S k))%Z
        with true by (symmetry; apply Z.ltb_lt; lia). reflexivity.
    + apply Nat.ltb_ge in E. replace (Z.of_nat (Nat.min (S (S k)) (length u)) <? Z.of_nat (S k))%Z
        with false by (symmetry; apply Z.ltb_ge; lia). reflexivity.
Qed.

(** Claim C1.  For every conversation and options whose [threshold]
    (default 3) is a count and [similarityFloor] defaults to 0.6,
    [detectLoop] returns true exactly when there are at least [threshold]
    user messages and every consecutive pair among the last [threshold] of
    them has cosine similarity (of the tokenised contents) at least
    [similarityFloor]; in particular it returns false with fewer than
    [threshold] user messages. *)
Theorem detectLoop_correct (messages : list Message) (options : option LoopOptions) :
  (0 <= default 3%Z (threshold (loop_options options)))%Z ->
  detectLoop messages options = true <->
  loop_claim messages (Z.to_nat (default 3%Z (threshold (loop_options options))))
    (default 0.6%float (similarityFloor (loop_options options))).
Proof.
  intros H0.
  rewrite (detectLoop_window messages options (Z.to_nat (default 3%Z (threshold (loop_options options)))))
    by lia.
  unfold loop_claim. cbv zeta.
  destruct (length (filter is_user messages) <? _)%nat eqn:E.
  - apply Nat.ltb_lt in E. split; [discriminate | intros [H _]; lia].
  - apply Nat.ltb_ge in E. rewrite forallb_consecutive. tauto.
Qed.

Lemma detectLoop_correct_witness :
  (0 <= default 3%Z (threshold (loop_options None)))%Z /\
  (detectLoop [] None = true <->
   loop_claim [] (Z.to_nat (default 3%Z (threshold (loop_options None))))
     (default 0.6%float (similarityFloor (loop_options None)))).
Proof. split; [vm_compute; discriminate | apply (detectLoop_correct [] None); vm_compute; discriminate]. Defined.

(** Claim C10.  With [threshold: 1] the comparison window holds one message
    and has no consecutive pair, so [detectLoop] fires exactly when there is
    at least one user message; with [threshold: 0] it fires on every
    conversation, the empty one included, whatever the similarity floor. *)
Theorem detectLoop_small_thresholds (messages : list Message) (floor : option float) :
  detectLoop messages (Some {| threshold := Some 1%Z; similarityFloor := floor |})
    = (0 <? length (filter is_user messages))%nat /\
  detectLoop messages (Some {| threshold := Some 0%Z; similarityFloor := floor |}) = true.
Proof.
  split.
  - rewrite (detectLoop_window _ _ 1) by reflexivity. cbv zeta.
    rewrite consecutive_short by (rewrite length_last_n; lia).
    destruct (length (filter is_user messages)) as [|n]; reflexivity.
  - rewrite (detectLoop_window _ _ 0) by reflexivity. cbv zeta.
    rewrite last_n_zero. destruct (length _ <? 0)%nat eqn:E; [apply Nat.ltb_lt in E; lia | reflexivity].
Qed.

(** ** Assistant messages and the user-message detectors *)

(** Claim C9.  Two conversations with the same subsequence of user messages
    (contents and timestamps, in order) get the same answer from
    [detectLoop], [detectVelocityCollapse] and [detectScopeCreep], for all
    options: assistant messages have no influence on them. *)
Theorem user_detectors_ignore_assistant (m1 m2 : list Message)
    (lo : option LoopOptions) (vo : option VelocityCollapseOptions.t)
    (so : option ScopeCreepOptions.t) :
  filter is_user m1 = filter is_user m2 ->
  detectLoop m1 lo = detectLoop m2 lo /\
  detectVelocityCollapse m1 vo = detectVelocityCollapse m2 vo /\
  detectScopeCreep m1 so = detectScopeCreep m2 so.
Proof.
  intros H. unfold detectLoop, detectVelocityCollapse, detectScopeCreep.
  rewrite H. repeat split.
Qed.

Lemma user_detectors_ignore_assistant_witness :
  let m1 := [mkMessage User "Rewrite it" 1%float] in
  let m2 := [mkMessage Assistant "Here it is" 0%float; mkMessage User "Rewrite it" 1%float;
             mkMessage Assistant "Another one" 2%float] in
  filter is_user m1 = filter is_user m2 /\
  (detectLoop m1 None = detectLoop m2 None /\
   detectVelocityCollapse m1 None = detectVelocityCollapse m2 None /\
   detectScopeCreep m1 None = detectScopeCreep m2 None).
Proof.
  cbv zeta. split; [reflexivity|].
  apply user_detectors_ignore_assistant. reflexivity.
Defined.

(** ** Saturation detector *)

Lemma length_filter_filter {A} (f g : A -> bool) (l : list A) :
  length (filter g (filter f l)) = length (filter (fun x => f x && g x) l).
Proof.
  induction l as [|x l IH]; simpl; [reflexivity|].
  destruct (f x); simpl; [destruct (g x); simpl; rewrite ?IH; reflexivity | exact IH].
Qed.

Lemma filter_nil_length {A} (f : A -> bool) (l : list A) :
  (length l =? 0)%nat = true -> (length (filter f l) = 0)%nat.
Proof. destruct l; [reflexivity | discriminate]. Qed.

(** [detectSaturation] with a resolved threshold [S k] never throws: the
    [S k]-th substantive response exists once there are [S k] of them. *)
Lemma detectSaturation_eq (messages : list Message) (options : option SaturationOptions) (k : nat) :
  default 3%Z (assistantResponseThreshold (saturation_options options)) = Z.of_nat (S k) ->
  detectSaturation messages options =
    let o := saturation_options options in
    let subs := substantive (default 200%Z (minAssistantLength o)) messages in
    let pats := default default_requestPatterns (requestPatterns o) in
    Some (if (length subs <? S k)%nat then false
          else match nth_error subs k with
               | Some r =>
                   (2 <=? length (filter (fun m => is_user m && (timestamp r <? timestamp m)%float
                                                   && requests_more pats m) messages))%nat
               | None => false
               end).
Proof.
  intros Hk. unfold detectSaturation. rewrite Hk. cbv zeta. fold (substantive (default 200%Z (minAssistantLength (saturation_options options))) messages).
  set (subs := substantive _ messages).
  destruct (length subs <? S k)%nat eqn:E.
  - apply Nat.ltb_lt in E. replace (Z.of_nat (length subs) <? Z.of_nat (S k))%Z with true
      by (symmetry; apply Z.ltb_lt; lia). reflexivity.
  - apply Nat.ltb_ge in E. replace (Z.of_nat (length subs) <? Z.of_nat (S k))%Z with false
      by (symmetry; apply Z.ltb_ge; lia).
    unfold index. replace (Z.of_nat (S k) - 1 <? 0)%Z with false by (symmetry; apply Z.ltb_ge; lia).
    replace (Z.to_nat (Z.of_nat (S k) - 1)) with k by lia.
    destruct (nth_error subs k) as [r|] eqn:Hr; [|apply nth_error_None in Hr; lia].
    set (after := filter _ messages).
    destruct (length after =? 0)%nat eqn:E0.
    + rewrite <- length_filter_filter. fold after.
      rewrite (filter_nil_length _ _ E0). reflexivity.
    + unfold after. rewrite length_filter_filter. reflexivity.
Qed.

(** Claim C4.  For a positive [assistantResponseThreshold] (default 3),
    [minAssistantLength] (default 200) and [requestPatterns] (default the
    eleven phrases), [detectSaturation] returns a boolean, false when fewer
    than [assistantResponseThreshold] assistant messages have at least
    [minAssistantLength] characters, and true exactly when at least two user
    messages with a timestamp strictly later than that of the
    [assistantResponseThreshold]-th such message (1-indexed, conversation
    order) have a lowercased content containing one of the patterns. *)
Theorem detectSaturation_correct (messages : list Message) (options : option SaturationOptions) :
  (1 <= sat_threshold options)%Z ->
  exists b, detectSaturation messages options = Some b /\
    ((length (substantive (sat_minlen options) messages) < Z.to_nat (sat_threshold options))%nat ->
     b = false) /\
    (b = true <->
     saturation_claim messages (Z.to_nat (sat_threshold options)) (sat_minlen options)
       (sat_patterns options)).
Proof.
  intros Hk.
  rewrite (detectSaturation_eq messages options (Z.to_nat (sat_threshold options) - 1))
    by (unfold sat_threshold in *; lia).
  cbv zeta. fold (sat_minlen options) (sat_patterns options).
  replace (S (Z.to_nat (sat_threshold options) - 1)) with (Z.to_nat (sat_threshold options)) by lia.
  eexists. split; [reflexivity|]. unfold saturation_claim.
  set (subs := substantive (sat_minlen options) messages).
  destruct (length subs <? Z.to_nat (sat_threshold options))%nat eqn:E.
  - apply Nat.ltb_lt in E. split; [reflexivity|]. split; [discriminate|].
    intros [r [Hr _]]. assert (Hs : nth_error subs (Z.to_nat (sat_threshold options) - 1) <> None)
      by congruence. apply nth_error_Some in Hs. lia.
  - apply Nat.ltb_ge in E. split; [lia|].
    destruct (nth_error subs _) as [r|] eqn:Hr; [|apply nth_error_None in Hr; lia].
    rewrite Nat.leb_le. split.
    + intros H. exists r. split; [reflexivity | exact H].
    + intros [r' [Hr' H]]. injection Hr' as <-. exact H.
Qed.

Lemma detectSaturation_correct_witness :
  (1 <= sat_threshold None)%Z /\
  exists b, detectSaturation [] None = Some b /\
    ((length (substantive (sat_minlen None) []) < Z.to_nat (sat_threshold None))%nat -> b = false) /\
    (b = true <-> saturation_claim [] (Z.to_nat (sat_threshold None)) (sat_minlen None)
                    (sat_patterns None)).
Proof.
  split; [vm_compute; discriminate | apply (detectSaturation_correct [] None); vm_compute; discriminate].
Defined.

(** ** The loop scenario *)

(** Claim C8.  A conversation whose user messages are "Rewrite the intro
    paragraph", "Rewrite the intro paragraph differently" and "Rewrite the
    intro paragraph again please", in that order and with any assistant
    messages between them, is a loop for [detectLoop] with the defaults, and
    [check] with the defaults returns a result whose signals contain
    "loop". *)
Theorem loop_scenario_detected (messages : list Message) :
  map content (filter is_user messages) = loop_scenario ->
  detectLoop messages None = true /\
  exists r, check messages None = Some r /\ In "loop" (signals r).
Proof.
  intros H.
  assert (HL : detectLoop messages None = true).
  { rewrite (detectLoop_window _ _ 3) by reflexivity. cbv zeta.
    remember (filter is_user messages) as u eqn:Hu. clear Hu.
    destruct u as [|p1 [|p2 [|p3 [|p4 u]]]]; try discriminate H.
    simpl in H. injection H as H1 H2 H3.
    cbn [length last_n skipn Nat.sub Nat.ltb Nat.leb consecutive].
    rewrite H1, H2, H3. vm_compute. reflexivity. }
  split; [exact HL|].
  unfold check. cbn [check_options default loop velocityCollapse scopeCreep saturation].
  rewrite HL. rewrite (detectSaturation_eq messages None 2) by reflexivity.
  eexists. split; [reflexivity|]. simpl. left. reflexivity.
Qed.

Lemma loop_scenario_detected_witness :
  let conv := [mkMessage User "Rewrite the intro paragraph" 0%float;
               mkMessage Assistant "Here's a rewrite." 30000%float;
               mkMessage User "Rewrite the intro paragraph differently" 60000%float;
               mkMessage Assistant "Another version." 90000%float;
               mkMessage User "Rewrite the intro paragraph again please" 120000%float] in
  map content (filter is_user conv) = loop_scenario /\
  (detectLoop conv None = true /\
   exists r, check conv None = Some r /\ In "loop" (signals r)).
Proof. cbv zeta. split; [reflexivity | apply loop_scenario_detected; reflexivity]. Defined.

(** ** Velocity-collapse detector *)

Lemma slice_empty {A} (l : list A) : slice l 0 (Some 0%Z) = [].
Proof. unfold slice, rel_index. simpl. rewrite Z.min_l by lia. reflexivity. Qed.

Lemma length_getGaps_nil : length (getGaps []) = 0%nat.
Proof. reflexivity. Qed.

(** Claim C5.  For a [windowSize] (default 4) that is a count and any
    [lengthDropRatio] (default 0.3) and [frequencyDropRatio] (default 3),
    [detectVelocityCollapse] is false with fewer than [windowSize * 2] user
    messages; otherwise, with "recent" the last [windowSize] user messages and
    "earlier" all the user messages before them, it fires on the length check
    (earlier mean length positive and recent/earlier at most
    [lengthDropRatio]), and only when that check does not fire, on the
    frequency check (both groups have an intra-group gap, the earlier mean gap
    is positive and recent/earlier mean gap is at least
    [frequencyDropRatio]); otherwise it is false. *)
Theorem detectVelocityCollapse_correct (messages : list Message)
    (options : option VelocityCollapseOptions.t) :
  (0 <= vc_window options)%Z ->
  detectVelocityCollapse messages options =
  velocity_claim messages (vc_lengthDropRatio options) (vc_frequencyDropRatio options)
    (Z.to_nat (vc_window options)).
Proof.
  intros H0. unfold detectVelocityCollapse, velocity_claim.
  fold (vc_window options) (vc_lengthDropRatio options) (vc_frequencyDropRatio options).
  set (w := Z.to_nat (vc_window options)).
  replace (vc_window options) with (Z.of_nat w) by (unfold w; lia).
  set (u := filter is_user messages). cbv zeta.
  destruct (length u <? 2 * w)%nat eqn:E.
  - apply Nat.ltb_lt in E.
    replace (Z.of_nat (length u) <? Z.of_nat w * 2)%Z with true by (symmetry; apply Z.ltb_lt; lia).
    reflexivity.
  - apply Nat.ltb_ge in E.
    replace (Z.of_nat (length u) <? Z.of_nat w * 2)%Z with false by (symmetry; apply Z.ltb_ge; lia).
    unfold mean_length, mean_number.
    destruct w as [|k].
    + simpl (Z.of_nat 0). simpl (- 0)%Z. rewrite slice_empty, slice_zero, last_n_zero.
      fold (mean_length []) (mean_length u). rewrite mean_length_nil, ltb_nan_r, div_nan_l, leb_nan_l.
      rewrite andb_false_r. simpl. rewrite andb_false_r. reflexivity.
    + rewrite slice_front by lia. rewrite slice_neg by lia.
      destruct (_ && _)%bool; [reflexivity|].
      destruct (length (getGaps (firstn (length u - S k) u)) =? 0)%nat; [reflexivity|].
      destruct (length (getGaps (last_n (S k) u)) =? 0)%nat; [reflexivity|].
      simpl. destruct (_ && _)%bool; reflexivity.
Qed.

Lemma detectVelocityCollapse_correct_witness :
  (0 <= vc_window None)%Z /\
  detectVelocityCollapse [] None =
  velocity_claim [] (vc_lengthDropRatio None) (vc_frequencyDropRatio None) (Z.to_nat (vc_window None)).
Proof.
  split; [vm_compute; discriminate | apply (detectVelocityCollapse_correct [] None); vm_compute; discriminate].
Defined.

(** ** Scope-creep detector *)

(** [l.slice(-2k, -k)] when [l] has at least [2k] elements. *)
Lemma slice_window {A} (l : list A) (k : nat) :
  (1 <= k)%nat -> (2 * k <= length l)%nat ->
  slice l (- Z.of_nat (2 * k)) (Some (- Z.of_nat k)%Z) = firstn k (last_n (2 * k) l).
Proof.
  intros Hk Hl. unfold slice, rel_index, last_n.
  replace (- Z.of_nat (2 * k) <? 0)%Z with true by (symmetry; apply Z.ltb_lt; lia).
  replace (- Z.of_nat k <? 0)%Z with true by (symmetry; apply Z.ltb_lt; lia).
  rewrite !Z.max_l by lia. f_equal; [|f_equal]; lia.
Qed.

(** Ten user messages: five empty ones, then five of one character each. *)
Definition empty_then_short : list Message :=
  map (fun c => mkMessage User c 0%float) ["";"";"";"";""; "a";"a";"a";"a";"a"].

(** Ten empty user messages. *)
Definition ten_empty : list Message :=
  map (fun c => mkMessage User c 0%float) ["";"";"";"";""; "";"";"";"";""].

(** Claim C2, as stated, fails: on ten empty user messages both window means
    are 0, so "recent mean >= 1.5 x earlier mean" and "as many questions"
    hold, but the code compares the ratio 0/0, which is NaN, and returns
    false. *)
Lemma detectScopeCreep_claim_counterexample :
  detectScopeCreep ten_empty None = false /\ scope_creep_claim ten_empty 5 1.5%float.
Proof.
  split; [vm_compute; reflexivity|].
  unfold scope_creep_claim. vm_compute. split; [lia | split; [reflexivity | lia]].
Qed.

(** Claim C2, amended.  For a [windowSize] (default 5) that is a count and any
    [growthRatio] (default 1.5), [detectScopeCreep] returns true exactly when
    there are at least [windowSize * 2] user messages, the ratio of the mean
    length of the last [windowSize] user messages to that of the
    [windowSize] before them is at least [growthRatio] (a ratio 0/0 is NaN and
    fails), and the recent window has no fewer messages with a question mark
    than the earlier one. *)
Theorem detectScopeCreep_correct (messages : list Message) (options : option ScopeCreepOptions.t) :
  (0 <= sc_window options)%Z ->
  detectScopeCreep messages options = true <->
  scope_creep_ratio messages (Z.to_nat (sc_window options)) (sc_growthRatio options).
Proof.
  intros H0. unfold detectScopeCreep, scope_creep_ratio, scope_windows.
  fold (sc_window options) (sc_growthRatio options).
  set (w := Z.to_nat (sc_window options)).
  replace (sc_window options) with (Z.of_nat w) by (unfold w; lia).
  set (u := filter is_user messages). cbv zeta.
  destruct (Z.of_nat (length u) <? Z.of_nat w * 2)%Z eqn:E.
  - apply Z.ltb_lt in E. split; [discriminate | intros [H _]; lia].
  - apply Z.ltb_ge in E. destruct w as [|k].
    + simpl (Z.of_nat 0). simpl (- 0 * 2)%Z. simpl (- 0)%Z.
      rewrite slice_empty, slice_zero, last_n_zero. simpl firstn.
      fold (mean_length []) (mean_length u). rewrite mean_length_nil, div_nan_r, div_nan_l, leb_nan_r.
      split; [discriminate | intros [_ [H _]]; discriminate].
    + replace (- Z.of_nat (S k) * 2)%Z with (- Z.of_nat (2 * S k))%Z by lia.
      rewrite slice_window by lia. rewrite slice_neg by lia.
      fold (mean_length (firstn (S k) (last_n (2 * S k) u))) (mean_length (last_n (S k) u)).
      destruct (sc_growthRatio options <=? _)%float.
      * destruct (count_questions _ <=? count_questions _)%nat eqn:Eq.
        -- apply Nat.leb_le in Eq. split; [intros _; repeat split; auto; lia | reflexivity].
        -- apply Nat.leb_gt in Eq. split; [discriminate | intros [_ [_ H]]; lia].
      * split; [discriminate | intros [_ [H _]]; discriminate].
Qed.

Lemma detectScopeCreep_correct_witness :
  (0 <= sc_window None)%Z /\
  (detectScopeCreep [] None = true <->
   scope_creep_ratio [] (Z.to_nat (sc_window None)) (sc_growthRatio None)).
Proof.
  split; [vm_compute; discriminate | apply (detectScopeCreep_correct [] None); vm_compute; discriminate].
Defined.

(** ** Division by zero and exceptions *)

(** Claim C3 does not hold.  The scope-creep detector divides the recent mean
    length by the earlier mean length without the [earlierAvgLength > 0]
    guard that the velocity-collapse detector has: with five empty user
    messages followed by five one-character ones the earlier mean is 0, the
    ratio is +Infinity, and the detector fires.  And the saturation detector
    throws (reads [.timestamp] of [undefined]) for
    [{ assistantResponseThreshold: 0 }], even on the empty conversation. *)
Lemma scope_creep_divides_by_zero :
  mean_length (firstn 5 (last_n 10 empty_then_short)) = 0%float /\
  (mean_length (last_n 5 empty_then_short) / mean_length (firstn 5 (last_n 10 empty_then_short)))%float
    = infinity /\
  detectScopeCreep empty_then_short None = true /\
  detectSaturation [] (Some {| assistantResponseThreshold := Some 0%Z; minAssistantLength := None;
                               requestPatterns := None |}) = None.
Proof. vm_compute. repeat split. Qed.

(** ** Combined check *)

Lemma triggered_nonempty (signals : list string) :
  (0 <? length signals)%nat = true <-> signals <> [].
Proof.
  destruct signals as [|s l]; simpl; split.
  - intros H; discriminate H.
  - intros H; exfalso; apply H; reflexivity.
  - intros _; discriminate.
  - intros _; reflexivity.
Qed.

Lemma all_tags_NoDup : NoDup all_tags.
Proof.
  repeat constructor; simpl; intros H;
    repeat (destruct H as [H|H]; [discriminate H|]); exact H.
Qed.

(** Claim C6.  Whenever [check] returns a result, [triggered] is true exactly
    when [signals] is non-empty, and [signals] is the subsequence of
    loop, velocity-collapse, scope-creep, saturation made of the tags whose
    detector, applied to the conversation with its own options sub-record
    (its defaults when the sub-record is absent), returns true: each tag at
    most once, in that order.  ([check] returns no result only when the
    saturation detector throws.) *)
Theorem check_result (messages : list Message) (options : option CheckOptions) :
  match check messages options with
  | Some r =>
      (triggered r = true <-> signals r <> []) /\
      signals r = filter (detector_fired messages (check_options options)) all_tags /\
      NoDup (signals r) /\
      (forall t, In t (signals r) <->
                 In t all_tags /\ detector_fired messages (check_options options) t = true)
  | None => detectSaturation messages (saturation (check_options options)) = None
  end.
Proof.
  unfold check. set (o := check_options options).
  destruct (detectSaturation messages (saturation o)) as [b|] eqn:Es; [|reflexivity].
  assert (Hs : ((if detectLoop messages (loop o) then ["loop"] else []) ++
               (if detectVelocityCollapse messages (velocityCollapse o)
                then ["velocity-collapse"] else []) ++
               (if detectScopeCreep messages (scopeCreep o) then ["scope-creep"] else []) ++
               (if b then ["saturation"] else []))%list
               = filter (detector_fired messages o) all_tags).
  { unfold all_tags, detector_fired. simpl. rewrite Es.
    destruct (detectLoop _ _), (detectVelocityCollapse _ _), (detectScopeCreep _ _), b;
      reflexivity. }
  simpl triggered. simpl signals. rewrite Hs. split; [apply triggered_nonempty|].
  split; [reflexivity|]. split.
  - apply NoDup_filter, all_tags_NoDup.
  - intros t. apply filter_In.
Qed.

(** ** Similarity scorer *)

(** Claim C7 does not hold.  [freq] counts tokens in a plain object [{}], so
    the token "constructor" (what [tokenise] makes of the word "Constructor")
    reads the inherited [Object.prototype.constructor]: [map[t] || 0] is that
    function, not 0, and [+ 1] turns the count into a string.  With one
    sequence empty, whose norm is zero, the similarity is then NaN rather
    than 0 (and for two empty sequences it is 0). *)
Lemma cosine_empty_constructor_nan :
  tokenise "Constructor" = ["constructor"] /\
  freq ["constructor"] = [("constructor", JStr "function Object() { [native code] }1")] /\
  is_nan (cosineSimilarity [] (tokenise "Constructor")) = true /\
  cosineSimilarity [] [] = 0%float.
Proof. vm_compute. repeat split. Qed.

(** * Further properties of the code *)

(** ** Characters *)

Lemma string_forall_app (p : ascii -> bool) (a b : string) :
  string_forall p (a ++ b) = string_forall p a && string_forall p b.
Proof. induction a as [|c a IH]; simpl; [reflexivity|]. rewrite IH. apply andb_assoc. Qed.

Lemma to_lower_char_not_upper (c : ascii) : is_upper (to_lower_char c) = false.
Proof. destruct c as [[|] [|] [|] [|] [|] [|] [|] [|]]; reflexivity. Qed.

Lemma to_lower_char_idem (c : ascii) : to_lower_char (to_lower_char c) = to_lower_char c.
Proof. destruct c as [[|] [|] [|] [|] [|] [|] [|] [|]]; reflexivity. Qed.

Lemma to_lower_char_space (c : ascii) : is_space_char (to_lower_char c) = is_space_char c.
Proof. destruct c as [[|] [|] [|] [|] [|] [|] [|] [|]]; reflexivity. Qed.

(** A word character that is not a capital letter is a token character. *)
Lemma word_not_upper (c : ascii) :
  is_upper c = false -> is_word_char c || is_space_char c = true ->
  is_token_char c || is_space_char c = true.
Proof. destruct c as [[|] [|] [|] [|] [|] [|] [|] [|]]; vm_compute; congruence. Qed.

Lemma toLowerCase_no_upper (s : string) :
  string_forall (fun c => negb (is_upper c)) (toLowerCase s) = true.
Proof. induction s as [|c s IH]; simpl; [reflexivity|]. now rewrite to_lower_char_not_upper, IH. Qed.

Lemma toLowerCase_idem (s : string) : toLowerCase (toLowerCase s) = toLowerCase s.
Proof. induction s as [|c s IH]; simpl; [reflexivity|]. now rewrite to_lower_char_idem, IH. Qed.

(** ** Tokeniser *)

Lemma strip_non_word_chars (s : string) :
  string_forall (fun c => negb (is_upper c)) s = true ->
  string_forall (fun c => is_token_char c || is_space_char c) (strip_non_word s) = true.
Proof.
  induction s as [|c s IH]; simpl; [reflexivity|].
  intros H. apply andb_true_iff in H as [Hc Hs]. apply negb_true_iff in Hc.
  destruct (is_word_char c || is_space_char c) eqn:E; simpl; [|auto].
  rewrite (word_not_upper c Hc E). simpl. auto.
Qed.

Lemma split_ws_go_tokens (s cur : string) (b : bool) :
  string_forall (fun c => is_token_char c || is_space_char c) s = true ->
  string_forall is_token_char cur = true ->
  Forall (fun t => string_forall is_token_char t = true) (split_ws_go s cur b).
Proof.
  revert cur b. induction s as [|c s IH]; intros cur b Hs Hcur; simpl.
  - constructor; [exact Hcur | constructor].
  - simpl in Hs. apply andb_true_iff in Hs as [Hc Hs].
    destruct (is_space_char c) eqn:Esp.
    + destruct b; [apply IH; auto|]. constructor; [exact Hcur|]. apply IH; auto.
    + apply IH; [exact Hs|]. rewrite string_forall_app, Hcur. simpl.
      rewrite orb_false_r in Hc. now rewrite Hc.
Qed.

Lemma tokenise_nonempty_token (text : string) :
  Forall (fun t => t <> EmptyString) (tokenise text).
Proof.
  unfold tokenise. apply Forall_forall. intros t Ht. apply filter_In in Ht as [_ Ht].
  intros ->. discriminate.
Qed.

(** Every token of [tokenise] is a non-empty string of lowercase ASCII
    letters, digits and underscores: no capital, no punctuation, no
    whitespace survives. *)
Theorem tokenise_token_chars (text : string) :
  Forall (fun t => t <> EmptyString /\ string_forall is_token_char t = true) (tokenise text).
Proof.
  assert (Hall : Forall (fun t => string_forall is_token_char t = true)
                   (split_ws (strip_non_word (toLowerCase text)))).
  { apply split_ws_go_tokens; [|reflexivity].
    apply strip_non_word_chars, toLowerCase_no_upper. }
  apply Forall_forall. intros t Ht. split.
  - exact (proj1 (Forall_forall _ _) (tokenise_nonempty_token text) t Ht).
  - unfold tokenise in Ht. apply filter_In in Ht as [Ht _].
    exact (proj1 (Forall_forall _ _) Hall t Ht).
Qed.

(** [tokenise] is case-insensitive: lowercasing the text first changes
    nothing. *)
Theorem tokenise_toLowerCase (text : string) : tokenise (toLowerCase text) = tokenise text.
Proof. unfold tokenise. now rewrite toLowerCase_idem. Qed.

Lemma strip_non_word_spaces (s : string) :
  string_forall (fun c => negb (is_word_char c)) s = true ->
  string_forall is_space_char (strip_non_word s) = true.
Proof.
  induction s as [|c s IH]; simpl; [reflexivity|].
  intros H. apply andb_true_iff in H as [Hc Hs]. apply negb_true_iff in Hc. rewrite Hc. simpl.
  destruct (is_space_char c) eqn:E; simpl; [rewrite E|]; auto.
Qed.

Lemma split_ws_go_spaces (s : string) (b : bool) :
  string_forall is_space_char s = true ->
  Forall (fun t => t = EmptyString) (split_ws_go s EmptyString b).
Proof.
  revert b. induction s as [|c s IH]; intros b Hs; simpl; [constructor; auto|].
  simpl in Hs. apply andb_true_iff in Hs as [Hc Hs]. rewrite Hc.
  destruct b; [auto | constructor; auto].
Qed.

Lemma toLowerCase_word (s : string) :
  string_forall (fun c => negb (is_word_char c)) s = true ->
  string_forall (fun c => negb (is_word_char c)) (toLowerCase s) = true.
Proof.
  assert (Hc : forall c, negb (is_word_char c) = true -> negb (is_word_char (to_lower_char c)) = true)
    by (intros c; destruct c as [[|] [|] [|] [|] [|] [|] [|] [|]]; vm_compute; congruence).
  induction s as [|c s IH]; simpl; [reflexivity|].
  intros H. apply andb_true_iff in H as [H1 H2]. now rewrite Hc, IH.
Qed.

(** A text with no letter, digit or underscore (only whitespace and
    punctuation, or nothing) has no tokens. *)
Theorem tokenise_no_word_chars (text : string) :
  string_forall (fun c => negb (is_word_char c)) text = true -> tokenise text = [].
Proof.
  intros H. unfold tokenise.
  pose proof (split_ws_go_spaces _ false (strip_non_word_spaces _ (toLowerCase_word _ H))) as Hsp.
  unfold split_ws. induction Hsp as [|t l Ht _ IH]; [reflexivity|]. subst t. exact IH.
Qed.

Lemma tokenise_no_word_chars_witness :
  string_forall (fun c => negb (is_word_char c)) " ?! ..." = true /\ tokenise " ?! ..." = [].
Proof. split; [reflexivity | apply tokenise_no_word_chars; reflexivity]. Defined.

(** ** Similarity scorer *)

Lemma freq_fold_proto (tokens : list string) (m : jsobj) :
  fold_left (fun m t => set_prim m t (plus_one (or_zero (get m t)))) tokens m =
  fold_left (fun m t => set_prim m t (plus_one (or_zero (get m t)))) (filter not_proto tokens) m.
Proof.
  revert m. induction tokens as [|t tokens IH]; intros m; simpl; [reflexivity|].
  unfold not_proto at 1. destruct (String.eqb t "__proto__") eqn:E; simpl.
  - apply String.eqb_eq in E. subst t. unfold set_prim at 2. simpl. apply IH.
  - apply IH.
Qed.

(** The token "__proto__" is never counted: assigning a number to
    [map["__proto__"]] goes to the inherited setter, which ignores it, so the
    counts are those of the tokens without it. *)
Theorem freq_ignores_proto (tokens : list string) :
  freq tokens = freq (filter not_proto tokens).
Proof. apply freq_fold_proto. Qed.

(** Hence [cosineSimilarity] does not see "__proto__" tokens at all. *)
Theorem cosineSimilarity_ignores_proto (tokensA tokensB : list string) :
  cosineSimilarity tokensA tokensB =
  cosineSimilarity (filter not_proto tokensA) (filter not_proto tokensB).
Proof. unfold cosineSimilarity, freq. now rewrite (freq_fold_proto tokensA), (freq_fold_proto tokensB). Qed.

(** ** Windows at the end of the conversation *)

Lemma last_n_app {A} (n : nat) (a b : list A) :
  (n <= length b)%nat -> last_n n (a ++ b) = last_n n b.
Proof.
  intros Hn. unfold last_n. rewrite length_app, skipn_app.
  rewrite (skipn_all2 a) by lia. simpl. f_equal. lia.
Qed.

Lemma slice_nil {A} (start : Z) (end_ : option Z) : slice (@List.nil A) start end_ = [].
Proof. unfold slice. now rewrite skipn_nil, firstn_nil. Qed.

Lemma length_consecutive {A B} (f : A -> A -> B) (l : list A) :
  length (consecutive f l) = (length l - 1)%nat.
Proof.
  induction l as [|x l IH]; [reflexivity|].
  destruct l as [|y l]; [reflexivity|]. simpl in IH |- *. rewrite IH. lia.
Qed.

(** [getGaps] yields one gap fewer than there are messages, and none for
    zero or one message. *)
Theorem length_getGaps (messages : list Message) :
  length (getGaps messages) = (length messages - 1)%nat.
Proof. apply length_consecutive. Qed.

(** Once the conversation holds at least [threshold] user messages (a count),
    [detectLoop] only looks at them: messages before do not change its
    answer. *)
Theorem detectLoop_prefix (prefix messages : list Message) (options : option LoopOptions) :
  (0 <= default 3%Z (threshold (loop_options options)))%Z ->
  (Z.to_nat (default 3%Z (threshold (loop_options options))) <= length (filter is_user messages))%nat ->
  detectLoop (prefix ++ messages) options = detectLoop messages options.
Proof.
  intros H0 Hn.
  set (n := Z.to_nat (default 3%Z (threshold (loop_options options)))) in Hn.
  assert (Hthr : default 3%Z (threshold (loop_options options)) = Z.of_nat n) by (unfold n; lia).
  rewrite !(detectLoop_window _ _ n Hthr). cbv zeta.
  rewrite filter_app, last_n_app by exact Hn. rewrite length_app.
  replace (length (filter is_user prefix) + length (filter is_user messages) <? n)%nat with false
    by (symmetry; apply Nat.ltb_ge; lia).
  replace (length (filter is_user messages) <? n)%nat with false
    by (symmetry; apply Nat.ltb_ge; lia).
  reflexivity.
Qed.

Lemma detectLoop_prefix_witness :
  let m := [mkMessage User "a b" 0%float; mkMessage User "a b" 1%float;
            mkMessage User "a b" 2%float] in
  (0 <= default 3%Z (threshold (loop_options None)))%Z /\
  (Z.to_nat (default 3%Z (threshold (loop_options None))) <= length (filter is_user m))%nat /\
  detectLoop ([mkMessage User "x" 0%float] ++ m) None = detectLoop m None.
Proof.
  cbv zeta. split; [vm_compute; discriminate|]. split; [vm_compute; constructor|].
  apply detectLoop_prefix; [vm_compute; discriminate | vm_compute; constructor].
Defined.

(** [detectScopeCreep] on a resolved window size [w >= 0]: the two windows
    are the last [2w] user messages cut in halves; [w = 0] never fires. *)
Lemma detectScopeCreep_eq (messages : list Message) (options : option ScopeCreepOptions.t) :
  (0 <= sc_window options)%Z ->
  detectScopeCreep messages options =
    let w := Z.to_nat (sc_window options) in
    let u := filter is_user messages in
    if (length u <? 2 * w)%nat then false
    else if (w =? 0)%nat then false
    else if (sc_growthRatio options <=?
             mean_length (last_n w u) / mean_length (firstn w (last_n (2 * w) u)))%float
    then (count_questions (firstn w (last_n (2 * w) u)) <=? count_questions (last_n w u))%nat
    else false.
Proof.
  intros H0. unfold detectScopeCreep.
  fold (sc_window options) (sc_growthRatio options).
  set (w := Z.to_nat (sc_window options)).
  replace (sc_window options) with (Z.of_nat w) by (unfold w; lia).
  set (u := filter is_user messages). cbv zeta.
  destruct (Z.of_nat (length u) <? Z.of_nat w * 2)%Z eqn:E.
  - apply Z.ltb_lt in E. replace (length u <? 2 * w)%nat with true
      by (symmetry; apply Nat.ltb_lt; lia). reflexivity.
  - apply Z.ltb_ge in E. replace (length u <? 2 * w)%nat with false
      by (symmetry; apply Nat.ltb_ge; lia). destruct w as [|k].
    + simpl (Z.of_nat 0). simpl (- 0 * 2)%Z. simpl (- 0)%Z.
      rewrite slice_empty, slice_zero.
      fold (mean_length []) (mean_length u). rewrite mean_length_nil, div_nan_r, leb_nan_r.
      reflexivity.
    + replace (- Z.of_nat (S k) * 2)%Z with (- Z.of_nat (2 * S k))%Z by lia.
      rewrite slice_window by lia. rewrite slice_neg by lia.
      fold (mean_length (firstn (S k) (last_n (2 * S k) u))) (mean_length (last_n (S k) u)).
      simpl (S k =? 0)%nat. cbv iota.
      destruct (sc_growthRatio options <=? _)%float; [|reflexivity].
      destruct (count_questions _ <=? count_questions _)%nat; reflexivity.
Qed.

(** With [windowSize: 0] the scope-creep detector never fires: the earlier
    window [slice(-0, -0)] is empty, its mean length 0/0 is NaN, and no
    comparison with NaN holds. *)
Theorem detectScopeCreep_window_zero (messages : list Message) (options : option ScopeCreepOptions.t) :
  sc_window options = 0%Z -> detectScopeCreep messages options = false.
Proof.
  intros H. rewrite detectScopeCreep_eq by lia. cbv zeta. rewrite H. simpl (Z.to_nat 0).
  destruct (_ <? _)%nat; reflexivity.
Qed.

Lemma detectScopeCreep_window_zero_witness :
  let o := Some {| ScopeCreepOptions.windowSize := Some 0%Z; ScopeCreepOptions.growthRatio := None |} in
  sc_window o = 0%Z /\ detectScopeCreep empty_then_short o = false.
Proof. cbv zeta. split; [reflexivity | apply detectScopeCreep_window_zero; reflexivity]. Defined.

(** Once the conversation holds at least [2 * windowSize] user messages
    ([windowSize] a count), [detectScopeCreep] only looks at the last
    [2 * windowSize] of them: messages before do not change its answer. *)
Theorem detectScopeCreep_prefix (prefix messages : list Message)
    (options : option ScopeCreepOptions.t) :
  (0 <= sc_window options)%Z ->
  (2 * Z.to_nat (sc_window options) <= length (filter is_user messages))%nat ->
  detectScopeCreep (prefix ++ messages) options = detectScopeCreep messages options.
Proof.
  intros H0 Hn. rewrite !detectScopeCreep_eq by exact H0. cbv zeta.
  rewrite filter_app, length_app, !last_n_app by lia.
  replace (length (filter is_user prefix) + length (filter is_user messages)
           <? 2 * Z.to_nat (sc_window options))%nat with false
    by (symmetry; apply Nat.ltb_ge; lia).
  replace (length (filter is_user messages) <? 2 * Z.to_nat (sc_window options))%nat with false
    by (symmetry; apply Nat.ltb_ge; lia).
  reflexivity.
Qed.

Lemma detectScopeCreep_prefix_witness :
  (0 <= sc_window None)%Z /\
  (2 * Z.to_nat (sc_window None) <= length (filter is_user empty_then_short))%nat /\
  detectScopeCreep ([mkMessage User "x" 0%float] ++ empty_then_short) None
  = detectScopeCreep empty_then_short None.
Proof.
  split; [vm_compute; discriminate|]. split; [vm_compute; constructor|].
  apply detectScopeCreep_prefix; [vm_compute; discriminate | vm_compute; constructor].
Defined.

(** ** Velocity-collapse detector: small windows *)

(** With [windowSize: 0] the velocity-collapse detector never fires: the
    earlier group [slice(0, -0)] is empty, so its mean length is NaN and it
    has no gaps. *)
Theorem detectVelocityCollapse_window_zero (messages : list Message)
    (options : option VelocityCollapseOptions.t) :
  vc_window options = 0%Z -> detectVelocityCollapse messages options = false.
Proof.
  intros H. unfold detectVelocityCollapse. cbv zeta. fold (vc_window options). rewrite H.
  simpl (0 * 2)%Z. simpl (- 0)%Z.
  destruct (_ <? 0)%Z; [reflexivity|].
  rewrite slice_empty. fold (mean_length []). rewrite mean_length_nil, ltb_nan_r. reflexivity.
Qed.

Lemma detectVelocityCollapse_window_zero_witness :
  let o := Some {| VelocityCollapseOptions.lengthDropRatio := None;
                   VelocityCollapseOptions.frequencyDropRatio := None;
                   VelocityCollapseOptions.windowSize := Some 0%Z |} in
  vc_window o = 0%Z /\ detectVelocityCollapse empty_then_short o = false.
Proof. cbv zeta. split; [reflexivity | apply detectVelocityCollapse_window_zero; reflexivity]. Defined.

(** With [windowSize: 1] the recent group is one message, which has no gap:
    the frequency check never decides, and the detector fires exactly on the
    length check (at least two user messages, a positive mean length of all
    but the last one, and the last one's length over that mean at most
    [lengthDropRatio]); timestamps play no part. *)
Theorem detectVelocityCollapse_window_one (messages : list Message)
    (options : option VelocityCollapseOptions.t) :
  vc_window options = 1%Z ->
  detectVelocityCollapse messages options =
    let u := filter is_user messages in
    let earlier := firstn (length u - 1) u in
    negb (length u <? 2)%nat
    && (0 <? mean_length earlier)%float
    && (mean_length (last_n 1 u) / mean_length earlier <=? vc_lengthDropRatio options)%float.
Proof.
  intros H. unfold detectVelocityCollapse. cbv zeta.
  fold (vc_window options) (vc_lengthDropRatio options). rewrite H.
  set (u := filter is_user messages).
  destruct (Z.of_nat (length u) <? 1 * 2)%Z eqn:E.
  - apply Z.ltb_lt in E. replace (length u <? 2)%nat with true
      by (symmetry; apply Nat.ltb_lt; lia). reflexivity.
  - apply Z.ltb_ge in E. replace (length u <? 2)%nat with false
      by (symmetry; apply Nat.ltb_ge; lia).
    change (Z.opp 1) with (Z.opp (Z.of_nat 1)).
    rewrite slice_front, slice_neg by lia.
    fold (mean_length (firstn (length u - 1) u)) (mean_length (last_n 1 u)).
    assert (Hg : (length (getGaps (last_n 1 u)) =? 0)%nat = true).
    { unfold getGaps. rewrite length_consecutive, length_last_n. apply Nat.eqb_eq. lia. }
    rewrite Hg, orb_true_r. simpl negb.
    destruct (_ && _); reflexivity.
Qed.

Lemma detectVelocityCollapse_window_one_witness :
  let o := Some {| VelocityCollapseOptions.lengthDropRatio := None;
                   VelocityCollapseOptions.frequencyDropRatio := None;
                   VelocityCollapseOptions.windowSize := Some 1%Z |} in
  let m := [mkMessage User "aaaa" 0%float; mkMessage User "aaaa" 100%float;
            mkMessage User "a" 101%float] in
  vc_window o = 1%Z /\ detectVelocityCollapse m o = true.
Proof.
  cbv zeta. split; [reflexivity|].
  rewrite detectVelocityCollapse_window_one by reflexivity. vm_compute. reflexivity.
Defined.

(** ** Saturation detector: when it throws, and its patterns *)

Lemma detectSaturation_None_iff (messages : list Message) (options : option SaturationOptions) :
  detectSaturation messages options = None <-> (sat_threshold options <= 0)%Z.
Proof.
  destruct (Z_lt_le_dec 0 (sat_threshold options)) as [Hpos|Hle].
  - assert (Hk : sat_threshold options = Z.of_nat (S (Z.to_nat (sat_threshold options - 1)))) by lia.
    rewrite (detectSaturation_eq messages options _ Hk). split; [discriminate | lia].
  - split; [intros _; exact Hle|intros _].
    unfold detectSaturation. cbv zeta. fold (sat_threshold options).
    replace (Z.of_nat (length _) <? sat_threshold options)%Z with false
      by (symmetry; apply Z.ltb_ge; lia).
    unfold index. replace (sat_threshold options - 1 <? 0)%Z with true
      by (symmetry; apply Z.ltb_lt; lia). reflexivity.
Qed.

(** [detectSaturation] throws (reads [.timestamp] of [undefined]) exactly
    when [assistantResponseThreshold] is 0 or negative, whatever the
    conversation; for a positive threshold it always returns a boolean. *)
Theorem detectSaturation_throws (messages : list Message) (options : option SaturationOptions) :
  detectSaturation messages options = None <-> (sat_threshold options <= 0)%Z.
Proof. apply detectSaturation_None_iff. Qed.

(** [check] throws exactly when its saturation options have an
    [assistantResponseThreshold] of 0 or below; the other detectors never
    throw. *)
Theorem check_throws (messages : list Message) (options : option CheckOptions) :
  check messages options = None <-> (sat_threshold (saturation (check_options options)) <= 0)%Z.
Proof.
  rewrite <- (detectSaturation_None_iff messages). unfold check. cbv zeta.
  destruct (detectSaturation messages (saturation (check_options options))); cbn iota;
    split; intros H; congruence.
Qed.

Lemma starts_with_forall (q : ascii -> bool) (s p : string) :
  starts_with s p = true -> string_forall q s = true -> string_forall q p = true.
Proof.
  revert s. induction p as [|c p IH]; intros s; [reflexivity|].
  destruct s as [|d s]; simpl; [discriminate|].
  intros H Hs. apply andb_true_iff in H as [Hcd H]. apply Ascii.eqb_eq in Hcd. subst d.
  apply andb_true_iff in Hs as [Hc Hs]. rewrite Hc. simpl. exact (IH s H Hs).
Qed.

Lemma includes_forall (q : ascii -> bool) (s p : string) :
  includes s p = true -> string_forall q s = true -> string_forall q p = true.
Proof.
  induction s as [|c s IH]; simpl; intros H Hs.
  - rewrite orb_false_r in H. exact (starts_with_forall q EmptyString p H eq_refl).
  - apply orb_true_iff in H as [H|H].
    + exact (starts_with_forall q (String c s) p H Hs).
    + apply andb_true_iff in Hs as [_ Hs]. exact (IH H Hs).
Qed.

(** A pattern with a capital letter is never found in lowercased text. *)
Lemma includes_lower_upper (s p : string) :
  has_upper p = true -> includes (toLowerCase s) p = false.
Proof.
  intros Hp. destruct (includes (toLowerCase s) p) eqn:E; [|reflexivity].
  pose proof (includes_forall _ _ _ E (toLowerCase_no_upper s)) as H.
  unfold has_upper in Hp. rewrite H in Hp. discriminate.
Qed.

Lemma filter_all_false {A} (f : A -> bool) (l : list A) :
  (forall x, f x = false) -> filter f l = [].
Proof. intros H. induction l as [|x l IH]; simpl; [reflexivity|]. now rewrite H. Qed.

(** The contents are lowercased before they are searched, but the patterns
    are not: when every request pattern contains an ASCII capital letter
    (for instance [["Give me"]]), the saturation detector (with a positive
    threshold) never fires. *)
Theorem detectSaturation_upper_patterns (messages : list Message)
    (options : option SaturationOptions) :
  (1 <= sat_threshold options)%Z ->
  forallb has_upper (sat_patterns options) = true ->
  detectSaturation messages options = Some false.
Proof.
  intros H1 Hup.
  assert (Hk : sat_threshold options = Z.of_nat (S (Z.to_nat (sat_threshold options - 1)))) by lia.
  rewrite (detectSaturation_eq messages options _ Hk). cbv zeta.
  destruct (_ <? _)%nat; [reflexivity|].
  destruct (nth_error _ _) as [r|]; [|reflexivity].
  rewrite filter_all_false; [reflexivity|].
  intros m. unfold requests_more.
  destruct (existsb _ _) eqn:E; [|apply andb_false_r].
  apply existsb_exists in E as [p [Hp E]].
  rewrite includes_lower_upper in E; [discriminate|].
  exact (proj1 (forallb_forall _ _) Hup p Hp).
Qed.

Lemma detectSaturation_upper_patterns_witness :
  let o := Some {| assistantResponseThreshold := Some 1%Z; minAssistantLength := Some 0%Z;
                   requestPatterns := Some ["Give me"] |} in
  let m := [mkMessage Assistant "here" 0%float; mkMessage User "give me more" 1%float;
            mkMessage User "give me more" 2%float] in
  (1 <= sat_threshold o)%Z /\ forallb has_upper (sat_patterns o) = true /\
  detectSaturation m o = Some false.
Proof.
  cbv zeta. split; [vm_compute; discriminate|]. split; [reflexivity|].
  apply detectSaturation_upper_patterns; [vm_compute; discriminate | reflexivity].
Defined.

Lemma includes_empty (s : string) : includes s EmptyString = true.
Proof. destruct s; reflexivity. Qed.

(** The empty string is found in every text: with [""] among the request
    patterns (and a positive threshold), the saturation detector fires
    exactly when at least two user messages are later than the
    [assistantResponseThreshold]-th substantive assistant response, whatever
    they say. *)
Theorem detectSaturation_empty_pattern (messages : list Message)
    (options : option SaturationOptions) :
  (1 <= sat_threshold options)%Z ->
  In EmptyString (sat_patterns options) ->
  detectSaturation messages options =
    Some (match nth_error (substantive (sat_minlen options) messages)
                  (Z.to_nat (sat_threshold options) - 1) with
          | Some r => (2 <=? length (filter (fun m => is_user m && (timestamp r <? timestamp m)%float)
                                       messages))%nat
          | None => false
          end).
Proof.
  intros H1 Hin.
  assert (Hk : sat_threshold options = Z.of_nat (S (Z.to_nat (sat_threshold options - 1)))) by lia.
  rewrite (detectSaturation_eq messages options _ Hk). cbv zeta.
  fold (sat_minlen options) (sat_patterns options).
  replace (Z.to_nat (sat_threshold options) - 1)%nat with (Z.to_nat (sat_threshold options - 1)) by lia.
  destruct (length _ <? _)%nat eqn:E.
  - apply Nat.ltb_lt in E. rewrite (proj2 (nth_error_None _ _)) by lia. reflexivity.
  - destruct (nth_error _ _) as [r|]; [|reflexivity].
    f_equal. f_equal. f_equal. apply filter_ext. intros m.
    replace (requests_more (sat_patterns options) m) with true; [apply andb_true_r|].
    symmetry. apply existsb_exists. exists EmptyString. split; [exact Hin | apply includes_empty].
Qed.

Lemma detectSaturation_empty_pattern_witness :
  let o := Some {| assistantResponseThreshold := Some 1%Z; minAssistantLength := Some 0%Z;
                   requestPatterns := Some [EmptyString] |} in
  let m := [mkMessage Assistant "here" 0%float; mkMessage User "ok" 1%float;
            mkMessage User "thanks" 2%float] in
  (1 <= sat_threshold o)%Z /\ In EmptyString (sat_patterns o) /\
  detectSaturation m o = Some true.
Proof.
  cbv zeta. split; [vm_compute; discriminate|]. split; [left; reflexivity|].
  rewrite detectSaturation_empty_pattern; [reflexivity | vm_compute; discriminate | left; reflexivity].
Defined.

(** ** The empty conversation *)

Lemma detectVelocityCollapse_nil (options : option VelocityCollapseOptions.t) :
  detectVelocityCollapse [] options = false.
Proof.
  unfold detectVelocityCollapse. cbv zeta. simpl filter. rewrite !slice_nil.
  destruct (_ <? _)%Z; [reflexivity|].
  fold (mean_length []). rewrite mean_length_nil, ltb_nan_r. reflexivity.
Qed.

Lemma detectScopeCreep_nil (options : option ScopeCreepOptions.t) :
  detectScopeCreep [] options = false.
Proof.
  unfold detectScopeCreep. cbv zeta. simpl filter. rewrite !slice_nil.
  destruct (_ <? _)%Z; [reflexivity|].
  fold (mean_length []). rewrite mean_length_nil, div_nan_r, leb_nan_r. reflexivity.
Qed.

(** On an empty conversation [check] reports nothing, provided the loop
    threshold and the saturation threshold are positive (the defaults are):
    [{ triggered: false, signals: [] }]. *)
Theorem check_empty (options : option CheckOptions) :
  (1 <= default 3%Z (threshold (loop_options (loop (check_options options)))))%Z ->
  (1 <= sat_threshold (saturation (check_options options)))%Z ->
  check [] options = Some {| triggered := false; signals := [] |}.
Proof.
  intros Hl Hs. unfold check. cbv zeta.
  set (o := check_options options) in *.
  assert (HL : detectLoop [] (loop o) = false).
  { rewrite (detectLoop_window [] (loop o) (Z.to_nat (default 3%Z (threshold (loop_options (loop o)))))) by lia.
    cbv zeta. simpl filter.
    replace (length (@List.nil Message) <? _)%nat with true by (symmetry; apply Nat.ltb_lt; simpl; lia).
    reflexivity. }
  assert (HS : detectSaturation [] (saturation o) = Some false).
  { assert (Hk : sat_threshold (saturation o)
                 = Z.of_nat (S (Z.to_nat (sat_threshold (saturation o) - 1)))) by lia.
    rewrite (detectSaturation_eq [] (saturation o) _ Hk). cbv zeta.
    replace (length _ <? _)%nat with true by (symmetry; apply Nat.ltb_lt; simpl; lia).
    reflexivity. }
  rewrite HL, HS, detectVelocityCollapse_nil, detectScopeCreep_nil. reflexivity.
Qed.

Lemma check_empty_witness :
  (1 <= default 3%Z (threshold (loop_options (loop (check_options None)))))%Z /\
  (1 <= sat_threshold (saturation (check_options None)))%Z /\
  check [] None = Some {| triggered := false; signals := [] |}.
Proof.
  split; [vm_compute; discriminate|]. split; [vm_compute; discriminate|].
  apply check_empty; vm_compute; discriminate.
Defined.

(** ** nil-space *)

Lemma trim_start_toLowerCase (s : string) :
  trim_start (toLowerCase s) = toLowerCase (trim_start s).
Proof.
  induction s as [|c s IH]; simpl; [reflexivity|].
  rewrite to_lower_char_space. destruct (is_space_char c); [exact IH | reflexivity].
Qed.

Lemma trim_end_toLowerCase (s : string) :
  trim_end (toLowerCase s) = toLowerCase (trim_end s).
Proof.
  induction s as [|c s IH]; simpl; [reflexivity|].
  rewrite to_lower_char_space, IH.
  destruct (trim_end s) as [|d r]; simpl; destruct (is_space_char c); reflexivity.
Qed.

Lemma trim_toLowerCase (s : string) : trim (toLowerCase s) = toLowerCase (trim s).
Proof. unfold trim. now rewrite trim_start_toLowerCase, trim_end_toLowerCase. Qed.

Lemma trim_start_trim_end (s : string) :
  trim_start (trim_end (trim_start s)) = trim_end (trim_start s).
Proof.
  induction s as [|c s IH]; simpl; [reflexivity|].
  destruct (is_space_char c) eqn:E; [exact IH|].
  simpl. rewrite E. simpl. rewrite E. reflexivity.
Qed.

Lemma trim_end_idem (s : string) : trim_end (trim_end s) = trim_end s.
Proof.
  induction s as [|c s IH]; simpl; [reflexivity|].
  destruct (is_space_char c && String.eqb (trim_end s) EmptyString) eqn:E; [reflexivity|].
  simpl. rewrite IH, E. reflexivity.
Qed.

Lemma trim_idem (s : string) : trim (trim s) = trim s.
Proof. unfold trim at 2 1. rewrite trim_start_trim_end. apply trim_end_idem. Qed.

(** [isDirectQuestion] ignores case: "HELLO?" is a direct question as
    "hello?" is. *)
Theorem isDirectQuestion_toLowerCase (message : string) :
  NilSpace.isDirectQuestion (toLowerCase message) = NilSpace.isDirectQuestion message.
Proof. unfold NilSpace.isDirectQuestion. now rewrite trim_toLowerCase, toLowerCase_idem. Qed.

(** A direct question is not blank and is not "done". *)
Lemma direct_question_line (x : string) :
  NilSpace.isDirectQuestion x = true ->
  String.eqb (trim x) EmptyString = false /\ String.eqb (toLowerCase (trim x)) "done" = false /\
  NilSpace.isDirectQuestion (trim x) = true.
Proof.
  intros H. split; [|split].
  - destruct (String.eqb (trim x) EmptyString) eqn:E; [|reflexivity].
    apply String.eqb_eq in E. unfold NilSpace.isDirectQuestion in H. rewrite E in H.
    discriminate H.
  - destruct (String.eqb (toLowerCase (trim x)) "done") eqn:E; [|reflexivity].
    apply String.eqb_eq in E. unfold NilSpace.isDirectQuestion in H. cbv zeta in H.
    rewrite E in H. discriminate H.
  - unfold NilSpace.isDirectQuestion in H |- *. now rewrite trim_idem.
Qed.

(** Lines after the first "done" are never read: the session ends there. *)
Theorem prompt_stops_at_done (env : NilSpace.Env) (pre post : list string) (d : string)
    (w : NilSpace.World) :
  NilSpace.is_done d = true ->
  NilSpace.prompt env (pre ++ d :: post) w = NilSpace.prompt env pre w.
Proof.
  intros Hd. revert w. induction pre as [|x pre IH]; intros w; simpl.
  - unfold NilSpace.is_done in Hd. apply andb_true_iff in Hd as [H1 H2].
    apply negb_true_iff in H1. rewrite H1, H2. reflexivity.
  - destruct (String.eqb (trim x) EmptyString); [apply IH|].
    destruct (String.eqb (toLowerCase (trim x)) "done"); [reflexivity|].
    destruct (NilSpace.nil env (trim x) w) as [response w1]. rewrite IH. reflexivity.
Qed.

Lemma prompt_stops_at_done_witness :
  let env := {| NilSpace.random := fun _ => 0.5%float;
                NilSpace.model_reply := fun _ _ => "hm" |} in
  NilSpace.is_done "  Done " = true /\
  NilSpace.prompt env (["hi"] ++ "  Done " :: ["hello"]) (NilSpace.mkWorld 0 0)
  = NilSpace.prompt env ["hi"] (NilSpace.mkWorld 0 0).
Proof. cbv zeta. split; [reflexivity | apply prompt_stops_at_done; reflexivity]. Defined.

(** Blank lines (empty or whitespace only) are skipped: they print nothing,
    draw no random number and call no model. *)
Theorem prompt_skips_blank (env : NilSpace.Env) (pre post : list string) (b : string)
    (w : NilSpace.World) :
  trim b = EmptyString ->
  NilSpace.prompt env (pre ++ b :: post) w = NilSpace.prompt env (pre ++ post) w.
Proof.
  intros Hb. revert w. induction pre as [|x pre IH]; intros w; simpl.
  - rewrite Hb. reflexivity.
  - destruct (String.eqb (trim x) EmptyString); [apply IH|].
    destruct (String.eqb (toLowerCase (trim x)) "done"); [reflexivity|].
    destruct (NilSpace.nil env (trim x) w) as [response w1]. rewrite IH. reflexivity.
Qed.

Lemma prompt_skips_blank_witness :
  let env := {| NilSpace.random := fun _ => 0.5%float;
                NilSpace.model_reply := fun _ _ => "hm" |} in
  let blank := String " " (String "009"%char (String " " EmptyString)) in
  trim blank = EmptyString /\
  NilSpace.prompt env (["hi"] ++ blank :: ["hello"]) (NilSpace.mkWorld 0 0)
  = NilSpace.prompt env (["hi"] ++ ["hello"]) (NilSpace.mkWorld 0 0).
Proof. cbv zeta. split; [reflexivity | apply prompt_skips_blank; reflexivity]. Defined.

Lemma combine_map_fst {A B C} (f : A -> C) (l : list A) (r : list B) :
  combine (map f l) r = map (fun p => (f (fst p), snd p)) (combine l r).
Proof.
  revert r. induction l as [|a l IH]; intros r; [reflexivity|].
  destruct r as [|b r]; [reflexivity|]. simpl. now rewrite IH.
Qed.

(** A session of direct questions ("hello", "are you there?", ...) gets a
    model reply for every line: one model call per line, no random number
    drawn, and two printed lines (the reply and an empty line) per line. *)
Theorem prompt_direct_questions (env : NilSpace.Env) (inputs : list string) (w : NilSpace.World) :
  Forall (fun x => NilSpace.isDirectQuestion x = true) inputs ->
  NilSpace.prompt env inputs w =
    (concat (map (fun '(i, x) =>
                    [NilSpace.response_line (Some (NilSpace.model_reply env (NilSpace.calls w + i) (trim x)));
                     EmptyString])
                 (combine (seq 0 (length inputs)) inputs)),
     NilSpace.mkWorld (NilSpace.draws w) (NilSpace.calls w + length inputs)).
Proof.
  intros H. revert w. induction H as [|x inputs Hx Hall IH]; intros w.
  - simpl. destruct w as [dr ca]. simpl. rewrite Nat.add_0_r. reflexivity.
  - destruct (direct_question_line x Hx) as [E1 [E2 E3]].
    simpl. rewrite E1, E2. unfold NilSpace.nil. rewrite E3. simpl.
    rewrite IH. simpl. rewrite Nat.add_0_r, <- seq_shift, combine_map_fst, map_map.
    erewrite map_ext; [f_equal; f_equal; lia|].
    intros [i y]. simpl. rewrite Nat.add_succ_r. reflexivity.
Qed.

Lemma prompt_direct_questions_witness :
  let env := {| NilSpace.random := fun _ => 0.5%float;
                NilSpace.model_reply := fun n _ => if (n =? 0)%nat then "yes" else EmptyString |} in
  Forall (fun x => NilSpace.isDirectQuestion x = true) ["Hello"; " are you THERE? "] /\
  NilSpace.prompt env ["Hello"; " are you THERE? "] (NilSpace.mkWorld 0 0)
  = (["  yes"; EmptyString; NilSpace.dot_line; EmptyString], NilSpace.mkWorld 0 2).
Proof.
  cbv zeta. split; [repeat constructor|].
  rewrite prompt_direct_questions by (repeat constructor). reflexivity.
Defined.

Lemma nil_world (env : NilSpace.Env) (message : string) (w : NilSpace.World) :
  (NilSpace.calls (snd (NilSpace.nil env message w)) <= S (NilSpace.calls w))%nat /\
  (NilSpace.draws (snd (NilSpace.nil env message w)) <= S (NilSpace.draws w))%nat.
Proof.
  unfold NilSpace.nil, NilSpace.whisper, NilSpace.coin.
  destruct (NilSpace.isDirectQuestion message); [simpl; lia|].
  destruct (NilSpace.SILENCE_WEIGHT <? _)%float; simpl; lia.
Qed.

(** The command-line loop calls the model at most once, and draws at most
    one random number, per line it answers, and it prints two lines for
    each line it answers: so the number of model calls (and of random draws)
    is at most half the number of printed lines. *)
Theorem prompt_calls_bounded (env : NilSpace.Env) (inputs : list string) (w : NilSpace.World) :
  let '(out, w') := NilSpace.prompt env inputs w in
  (2 * NilSpace.calls w' <= 2 * NilSpace.calls w + length out)%nat /\
  (2 * NilSpace.draws w' <= 2 * NilSpace.draws w + length out)%nat.
Proof.
  revert w. induction inputs as [|x inputs IH]; intros w; simpl; [lia|].
  destruct (String.eqb (trim x) EmptyString); [apply IH|].
  destruct (String.eqb (toLowerCase (trim x)) "done"); [simpl; lia|].
  pose proof (nil_world env (trim x) w) as Hw.
  destruct (NilSpace.nil env (trim x) w) as [response w1]. simpl in Hw.
  specialize (IH w1). destruct (NilSpace.prompt env inputs w1) as [out w2].
  simpl. lia.
Qed.
